(** * resize.py: batch resizing of the monster sprites 001.png .. 050.png

    A shallow embedding of [public/assets/Sprites/Monsters/resize.py].

    The script is a flat loop around three calls into Pillow and a few
    calls into [os.path].  The pure string functions it uses ([str],
    [str.zfill], [os.path.join], [os.path.dirname], [os.path.abspath]) are
    written out below in their POSIX flavour.  Everything that touches the
    disk ([os.path.exists], [Image.open], [Image.resize], [Image.save]) is
    an operation of a [Platform] that the program is parameterised by; what
    a theorem needs to know about the image library is a named hypothesis
    of that theorem.  The program itself lives in a small state and
    exception monad whose state is the disk together with the trace of
    everything the script did. *)

From Stdlib Require Import String Ascii List ZArith Lia Bool.
From Stdlib Require Import Strings.Byte.
From Stdlib Require Import DecimalString DecimalZ.
Import ListNotations.
Open Scope string_scope.
Open Scope Z_scope.

(** ** Python strings and [os.path] (POSIX) *)

Module Py.

(** [str(i)] for an [int]. *)
Definition str (i : Z) : string := NilZero.string_of_int (Z.to_int i).

Fixpoint zeros (n : nat) : string :=
  match n with
  | O => EmptyString
  | S k => String "0" (zeros k)
  end.

Definition is_sign (c : ascii) : bool :=
  (Ascii.eqb c "+" || Ascii.eqb c "-")%bool.

(** [s.zfill(width)]: zeros are inserted after a leading sign; a string
    that is already wide enough is returned as it is. *)
Definition zfill (width : nat) (s : string) : string :=
  let fill := (width - String.length s)%nat in
  match s with
  | String c rest =>
      if is_sign c then String c (zeros fill ++ rest) else zeros fill ++ s
  | EmptyString => zeros fill
  end.

(** [range(lo, hi)] *)
Definition range (lo hi : Z) : list Z :=
  map (fun k => lo + Z.of_nat k) (seq 0 (Z.to_nat (hi - lo))).

(** [s.startswith(pre)] *)
Fixpoint startswith (pre s : string) : bool :=
  match pre, s with
  | EmptyString, _ => true
  | String _ _, EmptyString => false
  | String a pre', String b s' => (Ascii.eqb a b && startswith pre' s')%bool
  end.

Fixpoint endswith_sep (s : string) : bool :=
  match s with
  | EmptyString => false
  | String c EmptyString => Ascii.eqb c "/"
  | String _ rest => endswith_sep rest
  end.

Fixpoint has_sep (s : string) : bool :=
  match s with
  | EmptyString => false
  | String c rest => (Ascii.eqb c "/" || has_sep rest)%bool
  end.

(** [posixpath.join(a, b)] *)
Definition join (a b : string) : string :=
  if startswith "/" b then b
  else if (String.eqb a EmptyString || endswith_sep a)%bool then a ++ b
  else a ++ "/" ++ b.

(** [p.split("/")] *)
Fixpoint split_sep (p : string) : list string :=
  match p with
  | EmptyString => [EmptyString]
  | String c rest =>
      if Ascii.eqb c "/" then EmptyString :: split_sep rest
      else match split_sep rest with
           | comp :: comps => String c comp :: comps
           | [] => [String c EmptyString]
           end
  end.

(** [p[:p.rfind("/") + 1]] and [p[p.rfind("/") + 1:]] *)
Fixpoint rsplit_sep (p : string) : string * string :=
  match p with
  | EmptyString => (EmptyString, EmptyString)
  | String c rest =>
      if has_sep rest then
        let (head, tail) := rsplit_sep rest in (String c head, tail)
      else if Ascii.eqb c "/" then ("/", rest)
      else (EmptyString, p)
  end.

Fixpoint all_sep (s : string) : bool :=
  match s with
  | EmptyString => true
  | String c rest => (Ascii.eqb c "/" && all_sep rest)%bool
  end.

(** [s.rstrip("/")] *)
Fixpoint rstrip_sep (s : string) : string :=
  match s with
  | EmptyString => EmptyString
  | String c rest =>
      if all_sep rest then (if Ascii.eqb c "/" then EmptyString else String c EmptyString)
      else String c (rstrip_sep rest)
  end.

(** [posixpath.dirname(p)] *)
Definition dirname (p : string) : string :=
  let head := fst (rsplit_sep p) in
  if (negb (String.eqb head EmptyString) && negb (all_sep head))%bool
  then rstrip_sep head else head.

(** [posixpath.basename(p)] *)
Definition basename (p : string) : string := snd (rsplit_sep p).

Definition isabs (p : string) : bool := startswith "/" p.

Definition norm_step (initial_slashes : nat) (new_comps : list string)
    (comp : string) : list string :=
  if (String.eqb comp EmptyString || String.eqb comp ".")%bool then new_comps
  else if (negb (String.eqb comp "..")
           || (Nat.eqb initial_slashes 0 && Nat.eqb (List.length new_comps) 0)
           || (negb (Nat.eqb (List.length new_comps) 0)
               && String.eqb (last new_comps EmptyString) ".."))%bool
       then new_comps ++ [comp]
       else removelast new_comps.

(** [posixpath.normpath(path)] *)
Definition normpath (path : string) : string :=
  if String.eqb path EmptyString then "." else
  let initial_slashes :=
    if startswith "/" path then
      if (startswith "//" path && negb (startswith "///" path))%bool
      then 2%nat else 1%nat
    else 0%nat in
  let comps := fold_left (norm_step initial_slashes) (split_sep path) [] in
  let path' := String.concat "/" comps in
  let path' := String.concat EmptyString (repeat "/" initial_slashes) ++ path' in
  if String.eqb path' EmptyString then "." else path'.

(** [posixpath.abspath(path)], with the working directory of the process
    made explicit. *)
Definition abspath (cwd path : string) : string :=
  normpath (if isabs path then path else join cwd path).

End Py.

(** ** The platform: disk, image library, console *)

(** What the library calls raise.  Pillow and the operating system report
    every failure of decoding, resampling and encoding (corrupt data,
    unsupported format, I/O and permission errors) with classes derived
    from [Exception]; that is the class the script's handler names, so the
    handler catches every value of this type.  Signals delivered to the
    interpreter ([KeyboardInterrupt], [SystemExit]) are not library
    failures and are not modelled.  [exc_str] is [str(e)]. *)
Record Exception : Type := mkException {
  exc_class : string;
  exc_str : string
}.

Inductive result (A : Type) : Type :=
| Ok (a : A)
| Raise (e : Exception).
Arguments Ok {A} a.
Arguments Raise {A} e.

(** [PIL.Image.Resampling] *)
Inductive Resampling : Type :=
| NEAREST | LANCZOS | BILINEAR | BICUBIC | BOX | HAMMING.

(** The operations the script calls outside its own code.  [FS] is the
    state of the disk and [Img] an image held in memory.  Probing and
    decoding read the disk; only [image_save] returns a new one. *)
Record Platform : Type := mkPlatform {
  FS : Type;
  Img : Type;
  path_exists : string -> FS -> bool;
  read_bytes : string -> FS -> option (list byte);
  image_open : string -> FS -> result Img;
  image_size : Img -> Z * Z;
  image_resize : Img -> Z * Z -> Resampling -> FS -> result Img;
  image_save : Img -> string -> FS -> result unit * FS
}.

(** What the script was started as: [__file__] and the working directory. *)
Record Env : Type := mkEnv {
  dunder_file : string;
  cwd : string
}.

(** Everything the script does that is visible from outside, in order. *)
Inductive event : Type :=
| EvExists (p : string) (b : bool)
| EvOpen (p : string) (raised : option Exception)
| EvResize (size : Z * Z) (resample : Resampling) (raised : option Exception)
| EvSave (p : string) (raised : option Exception)
| EvClose
| EvPrint (line : string).

Definition raised_of {A : Type} (r : result A) : option Exception :=
  match r with
  | Ok _ => None
  | Raise e => Some e
  end.

(** The lines printed, the paths probed, the paths written to and every
    path handed to the platform, read off a trace. *)
Fixpoint stdout_of (t : list event) : list string :=
  match t with
  | [] => []
  | EvPrint l :: t' => l :: stdout_of t'
  | _ :: t' => stdout_of t'
  end.

Fixpoint probed_of (t : list event) : list string :=
  match t with
  | [] => []
  | EvExists p _ :: t' => p :: probed_of t'
  | _ :: t' => probed_of t'
  end.

Fixpoint saved_of (t : list event) : list string :=
  match t with
  | [] => []
  | EvSave p _ :: t' => p :: saved_of t'
  | _ :: t' => saved_of t'
  end.

Fixpoint touched_of (t : list event) : list string :=
  match t with
  | [] => []
  | EvExists p _ :: t' => p :: touched_of t'
  | EvOpen p _ :: t' => p :: touched_of t'
  | EvSave p _ :: t' => p :: touched_of t'
  | _ :: t' => touched_of t'
  end.

(** The three kinds of console line, told apart by how the line begins. *)
Inductive line_kind : Type := KSuccess | KError | KNotFound.

Definition success_line (file_path : string) : string :=
  "Successfully resized " ++ file_path.
Definition error_line (file_path : string) (e : Exception) : string :=
  "Error processing " ++ file_path ++ ": " ++ exc_str e.
Definition not_found_line (filename : string) : string :=
  "File not found: " ++ filename.

Definition kinds_of_line (l : string) : list line_kind :=
  (if Py.startswith "Successfully resized " l then [KSuccess] else []) ++
  (if Py.startswith "Error processing " l then [KError] else []) ++
  (if Py.startswith "File not found: " l then [KNotFound] else []).

(** ** The script *)

Section Script.

Context (P : Platform).

Record World : Type := mkWorld {
  disk : FS P;
  trace : list event
}.

Definition M (A : Type) : Type := World -> result A * World.

Definition ret {A : Type} (a : A) : M A := fun w => (Ok a, w).

Definition bind {A B : Type} (m : M A) (k : A -> M B) : M B :=
  fun w =>
    match m w with
    | (Ok a, w') => k a w'
    | (Raise e, w') => (Raise e, w')
    end.

Notation "x <- m ;; k" := (bind m (fun x => k))
  (at level 61, m at next level, right associativity).
Notation "m ;;; k" := (bind m (fun _ => k))
  (at level 61, right associativity).

Definition emit (ev : event) (w : World) : World :=
  mkWorld (disk w) (trace w ++ [ev]).

(** [try: body / except Exception as e: handler(e)] *)
Definition try_except {A : Type} (body : M A) (handler : Exception -> M A)
    : M A :=
  fun w =>
    match body w with
    | (Ok a, w') => (Ok a, w')
    | (Raise e, w') => handler e w'
    end.

(** [with enter as x: body(x)].  The image's [__exit__] releases the file
    handle and returns [None], so an exception of the body is raised again
    once the handle is closed. *)
Definition with_ {A B : Type} (enter : M A) (exit_ : A -> M unit)
    (body : A -> M B) : M B :=
  fun w =>
    match enter w with
    | (Raise e, w1) => (Raise e, w1)
    | (Ok x, w1) =>
        match body x w1 with
        | (Ok b, w2) =>
            match exit_ x w2 with
            | (Ok _, w3) => (Ok b, w3)
            | (Raise e, w3) => (Raise e, w3)
            end
        | (Raise e, w2) => (Raise e, snd (exit_ x w2))
        end
    end.

(** [for x in l: body(x)] *)
Fixpoint for_ {A : Type} (l : list A) (body : A -> M unit) : M unit :=
  match l with
  | [] => ret tt
  | x :: l' => body x ;;; for_ l' body
  end.

(** [print(line)]: the console takes every line. *)
Definition print (line : string) : M unit :=
  fun w => (Ok tt, emit (EvPrint line) w).

Definition os_path_exists (p : string) : M bool :=
  fun w =>
    let b := path_exists P p (disk w) in
    (Ok b, emit (EvExists p b) w).

Definition Image_open (p : string) : M (Img P) :=
  fun w =>
    let r := image_open P p (disk w) in
    (r, emit (EvOpen p (raised_of r)) w).

Definition Image_close (img : Img P) : M unit :=
  fun w => (Ok tt, emit EvClose w).

Definition Image_resize (img : Img P) (size : Z * Z) (resample : Resampling)
    : M (Img P) :=
  fun w =>
    let r := image_resize P img size resample (disk w) in
    (r, emit (EvResize size resample (raised_of r)) w).

Definition Image_save (img : Img P) (p : string) : M unit :=
  fun w =>
    let (r, d) := image_save P img p (disk w) in
    (r, mkWorld d (trace w ++ [EvSave p (raised_of r)])).

Definition default_size : Z * Z := (128, 128).

Definition resize_image (file_path : string) (size : Z * Z) : M unit :=
  try_except
    (with_ (Image_open file_path) Image_close (fun img =>
       resized_img <- Image_resize img size LANCZOS ;;
       Image_save resized_img file_path ;;;
       print (success_line file_path)))
    (fun e => print (error_line file_path e)).

Definition current_dir (env : Env) : string :=
  Py.dirname (Py.abspath (cwd env) (dunder_file env)).

Definition filename_of (i : Z) : string := Py.zfill 3 (Py.str i) ++ ".png".

Definition file_path_of (env : Env) (i : Z) : string :=
  Py.join (current_dir env) (filename_of i).

(** The body of the loop of [main]. *)
Definition main_body (env : Env) (i : Z) : M unit :=
  let filename := filename_of i in
  let file_path := Py.join (current_dir env) filename in
  found <- os_path_exists file_path ;;
  if found then resize_image file_path default_size
  else print (not_found_line filename).

Definition main (env : Env) : M unit :=
  for_ (Py.range 1 51) (main_body env).

(** A run of the script: [main()] from a fresh process, and the exit
    status of the interpreter (0 unless an exception reaches the top). *)
Definition boot (d : FS P) : World := mkWorld d [].

Definition run (env : Env) (d : FS P) : World := snd (main env (boot d)).

Definition exit_status (env : Env) (d : FS P) : Z :=
  match fst (main env (boot d)) with
  | Ok _ => 0
  | Raise _ => 1
  end.

(** The decoded dimensions of the file at a path, when it decodes. *)
Definition decoded_size (p : string) (d : FS P) : option (Z * Z) :=
  match image_open P p d with
  | Ok img => Some (image_size P img)
  | Raise _ => None
  end.

(** The world in which the loop reaches index [i]. *)
Definition world_before (env : Env) (d : FS P) (i : Z) : World :=
  snd (for_ (Py.range 1 i) (main_body env) (boot d)).

End Script.

Arguments disk {P} w.
Arguments trace {P} w.
Arguments mkWorld {P} disk trace.

(** ** The effect of the script in closed form

    What one call of [resize_image], one turn of the loop and a whole loop
    do to the disk, and the events they add to the trace, as functions of
    the disk they start from.  They are proved equal to the monadic
    program below and carry the inductions over the loop. *)

Section Effects.

Context (P : Platform).

Definition resize_effect (file_path : string) (size : Z * Z) (d : FS P)
    : FS P * list event :=
  match image_open P file_path d with
  | Raise e =>
      (d, [EvOpen file_path (Some e); EvPrint (error_line file_path e)])
  | Ok img =>
      match image_resize P img size LANCZOS d with
      | Raise e =>
          (d, [EvOpen file_path None; EvResize size LANCZOS (Some e);
               EvClose; EvPrint (error_line file_path e)])
      | Ok resized_img =>
          match image_save P resized_img file_path d with
          | (Ok _, d') =>
              (d', [EvOpen file_path None; EvResize size LANCZOS None;
                    EvSave file_path None;
                    EvPrint (success_line file_path); EvClose])
          | (Raise e, d') =>
              (d', [EvOpen file_path None; EvResize size LANCZOS None;
                    EvSave file_path (Some e);
                    EvClose; EvPrint (error_line file_path e)])
          end
      end
  end.

Definition body_effect (env : Env) (i : Z) (d : FS P) : FS P * list event :=
  let file_path := file_path_of env i in
  if path_exists P file_path d then
    let (d', t) := resize_effect file_path default_size d in
    (d', EvExists file_path true :: t)
  else (d, [EvExists file_path false; EvPrint (not_found_line (filename_of i))]).

Fixpoint loop_effect (env : Env) (l : list Z) (d : FS P)
    : FS P * list event :=
  match l with
  | [] => (d, [])
  | i :: l' =>
      let (d1, t1) := body_effect env i d in
      let (d2, t2) := loop_effect env l' d1 in
      (d2, (t1 ++ t2)%list)
  end.

(** Whether a call of [resize_image] gets as far as calling [save], and
    the exception of the first library call that raises, if one does. *)
Definition reaches_save (file_path : string) (size : Z * Z) (d : FS P)
    : bool :=
  match image_open P file_path d with
  | Raise _ => false
  | Ok img =>
      match image_resize P img size LANCZOS d with
      | Raise _ => false
      | Ok _ => true
      end
  end.

Definition raised_in (file_path : string) (size : Z * Z) (d : FS P)
    : option Exception :=
  match image_open P file_path d with
  | Raise e => Some e
  | Ok img =>
      match image_resize P img size LANCZOS d with
      | Raise e => Some e
      | Ok resized_img => raised_of (fst (image_save P resized_img file_path d))
      end
  end.

(** *** What the theorems ask of the image library *)

(** A resized image has the size that was asked for. *)
Definition resize_honours_size : Prop :=
  forall img size resample d resized,
    image_resize P img size resample d = Ok resized ->
    image_size P resized = size.

(** After a save that returned, the path exists and decodes to an image
    of the size of the one saved. *)
Definition save_roundtrip : Prop :=
  forall img p d d',
    image_save P img p d = (Ok tt, d') ->
    path_exists P p d' = true /\
    decoded_size P p d' = Some (image_size P img).

(** A save, whether it returns or raises, leaves the existence and the
    decoded size of every other path as they were. *)
Definition save_keeps_others : Prop :=
  forall img p d q,
    q <> p ->
    path_exists P q (snd (image_save P img p d)) = path_exists P q d /\
    decoded_size P q (snd (image_save P img p d)) = decoded_size P q d.

(** A save, whether it returns or raises, leaves the bytes of every other
    path as they were. *)
Definition save_writes_only_its_path : Prop :=
  forall img p d q,
    q <> p ->
    read_bytes P q (snd (image_save P img p d)) = read_bytes P q d.

(** No fault of the environment: an image that decodes can be resampled
    to the default size, and an image of that size can be written over an
    existing file. *)
Definition no_fault : Prop :=
  (forall p d img,
     image_open P p d = Ok img ->
     exists resized,
       image_resize P img default_size LANCZOS d = Ok resized) /\
  (forall img p d,
     image_size P img = default_size ->
     path_exists P p d = true ->
     fst (image_save P img p d) = Ok tt).

(** The file at a path is there and is a 128x128 image. *)
Definition valid_sprite (p : string) (d : FS P) : Prop :=
  path_exists P p d = true /\ decoded_size P p d = Some (128, 128).

(** The outcome the spec promises for every sprite that is there before a
    run: it is there after the run and is 128x128. *)
Definition every_existing_sprite_ends_128x128 (env : Env) (d : FS P) : Prop :=
  forall i,
    1 <= i <= 50 ->
    path_exists P (file_path_of env i) d = true ->
    valid_sprite (file_path_of env i) (disk (run P env d)).

(** A directory whose sprites, as far as they are there, are 128x128. *)
Definition only_valid_sprites (env : Env) (d : FS P) : Prop :=
  forall i,
    1 <= i <= 50 ->
    path_exists P (file_path_of env i) d = true ->
    decoded_size P (file_path_of env i) d = Some (128, 128).

End Effects.

(** ** An in-memory platform

    A disk that is a table from paths to bytes and a toy image format: a
    file is an image when it starts with the byte 0x89 followed by one
    byte of width and one byte of height.  It is used to run the script on
    concrete directories. *)

Module Mem.

Definition fs : Type := string -> option (list byte).

Definition empty : fs := fun _ => None.

Definition write (p : string) (bs : list byte) (d : fs) : fs :=
  fun q => if String.eqb q p then Some bs else d q.

Definition decode (bs : list byte) : option (Z * Z) :=
  match bs with
  | magic :: w :: h :: _ =>
      if Byte.eqb magic x89
      then Some (Z.of_N (Byte.to_N w), Z.of_N (Byte.to_N h))
      else None
  | _ => None
  end.

Definition encode (size : Z * Z) : option (list byte) :=
  let (w, h) := size in
  if ((0 <? w) && (0 <? h))%bool then
    match Byte.of_N (Z.to_N w), Byte.of_N (Z.to_N h) with
    | Some bw, Some bh => Some [x89; bw; bh]
    | _, _ => None
    end
  else None.

Definition exists_ (p : string) (d : fs) : bool :=
  match d p with
  | Some _ => true
  | None => false
  end.

Definition open (p : string) (d : fs) : result (Z * Z) :=
  match d p with
  | None =>
      Raise (mkException "FileNotFoundError"
               ("[Errno 2] No such file or directory: " ++ p))
  | Some bs =>
      match decode bs with
      | Some size => Ok size
      | None =>
          Raise (mkException "UnidentifiedImageError"
                   ("cannot identify image file " ++ p))
      end
  end.

Definition resize (img : Z * Z) (size : Z * Z) (resample : Resampling)
    (d : fs) : result (Z * Z) :=
  if ((0 <? fst size) && (0 <? snd size))%bool then Ok size
  else Raise (mkException "ValueError" "height and width must be > 0").

(** The file is opened for writing, which empties it, before the encoder
    runs. *)
Definition save (img : Z * Z) (p : string) (d : fs) : result unit * fs :=
  match encode img with
  | Some bs => (Ok tt, write p bs d)
  | None =>
      (Raise (mkException "OSError" "encoder error when writing image file"),
       write p [] d)
  end.

Definition platform : Platform :=
  mkPlatform fs (Z * Z) exists_ (fun p d => d p) open (fun img => img)
    resize save.

(** The script installed as /srv/app/resize.py and started from /home/dev. *)
Definition env : Env := mkEnv "/srv/app/resize.py" "/home/dev".

Definition png (w h : byte) : list byte := [x89; w; h].

(** "hello" *)
Definition text : list byte := [x68; x65; x6c; x6c; x6f].

(** The directory of the scenario: a 200x100 image as 001.png, no
    002.png, a text file as 003.png, and a file of another name. *)
Definition scenario : fs :=
  write "/srv/app/001.png" (png xc8 x64)
    (write "/srv/app/003.png" text
       (write "/srv/app/notes.txt" text empty)).

(** A directory whose sprites are already 128x128. *)
Definition resized_dir : fs :=
  write "/srv/app/001.png" (png x80 x80)
    (write "/srv/app/002.png" (png x80 x80) empty).

End Mem.

(** ** Reading an index back from a file name *)

Definition digit_val (c : ascii) : Z := Z.of_nat (nat_of_ascii c) - 48.

Definition digit_char (k : Z) : ascii := ascii_of_nat (48 + Z.to_nat k).

Definition index_of_filename (s : string) : Z :=
  match s with
  | String a (String b (String c _)) =>
      100 * digit_val a + 10 * digit_val b + digit_val c
  | _ => 0
  end.

(** The name the spec gives to index [i]: three decimal digits and the
    extension. *)
Definition three_digit_png (i : Z) : string :=
  String (digit_char (i / 100))
    (String (digit_char (i / 10 mod 10))
       (String (digit_char (i mod 10)) ".png")).

(** The fifty paths of a run. *)
Definition targets (env : Env) : list string :=
  map (file_path_of env) (Py.range 1 51).

(** ** More readings of a trace *)

(** The paths opened, the paths whose probe answered yes, the paths whose
    save returned, and the size and filter of every resize asked for. *)
Definition opened_of (t : list event) : list string :=
  flat_map (fun ev => match ev with EvOpen p _ => [p] | _ => [] end) t.

Definition probed_true_of (t : list event) : list string :=
  flat_map (fun ev => match ev with EvExists p true => [p] | _ => [] end) t.

Definition saved_ok_of (t : list event) : list string :=
  flat_map (fun ev => match ev with EvSave p None => [p] | _ => [] end) t.

Definition resizes_of (t : list event) : list (Z * Z * Resampling) :=
  flat_map
    (fun ev =>
       match ev with
       | EvResize size resample _ => [(size, resample)]
       | _ => []
       end) t.

(** The exceptions the platform raised, in order. *)
Definition raised_events (t : list event) : list Exception :=
  flat_map
    (fun ev =>
       match ev with
       | EvOpen _ (Some e) => [e]
       | EvResize _ _ (Some e) => [e]
       | EvSave _ (Some e) => [e]
       | _ => []
       end) t.

(** The discipline of the image handle.  A handle is taken by an open
    that returns and given back by a close; resizing and saving need the
    handle; a path is probed or opened only when no handle is held. *)
Inductive handle : Type := Idle | Held.

Definition handle_step (h : handle) (ev : event) : option handle :=
  match h, ev with
  | _, EvPrint _ => Some h
  | Idle, EvExists _ _ => Some Idle
  | Idle, EvOpen _ None => Some Held
  | Idle, EvOpen _ (Some _) => Some Idle
  | Held, EvResize _ _ _ => Some Held
  | Held, EvSave _ _ => Some Held
  | Held, EvClose => Some Idle
  | _, _ => None
  end.

Fixpoint handle_scan (h : handle) (t : list event) : option handle :=
  match t with
  | [] => Some h
  | ev :: t' =>
      match handle_step h ev with
      | Some h' => handle_scan h' t'
      | None => None
      end
  end.

(** The events of a turn of the loop whose file is missing. *)
Definition not_found_turn (env : Env) (i : Z) : list event :=
  [EvExists (file_path_of env i) false;
   EvPrint (not_found_line (filename_of i))].

(** ** Sanity checks of the string functions *)

Example str_7 : Py.str 7 = "7". Proof. reflexivity. Qed.
Example str_50 : Py.str 50 = "50". Proof. reflexivity. Qed.
Example zfill_7 : Py.zfill 3 (Py.str 7) = "007". Proof. reflexivity. Qed.
Example zfill_neg : Py.zfill 5 (Py.str (-42)) = "-0042". Proof. reflexivity. Qed.
Example zfill_wide : Py.zfill 3 (Py.str 1234) = "1234". Proof. reflexivity. Qed.
Example range_1_4 : Py.range 1 4 = [1; 2; 3]. Proof. reflexivity. Qed.
Example join_plain : Py.join "/srv/app" "001.png" = "/srv/app/001.png".
Proof. reflexivity. Qed.
Example join_root : Py.join "/" "001.png" = "/001.png". Proof. reflexivity. Qed.
Example dirname_file :
  Py.dirname "/srv/app/resize.py" = "/srv/app". Proof. reflexivity. Qed.
Example dirname_root : Py.dirname "/resize.py" = "/". Proof. reflexivity. Qed.
Example basename_file :
  Py.basename "/srv/app/001.png" = "001.png". Proof. reflexivity. Qed.
Example normpath_dots :
  Py.normpath "/srv/./app/../sprites//resize.py" = "/srv/sprites/resize.py".
Proof. reflexivity. Qed.
Example abspath_relative :
  Py.abspath "/home/dev" "sprites/resize.py" = "/home/dev/sprites/resize.py".
Proof. reflexivity. Qed.
Example abspath_absolute :
  Py.abspath "/home/dev" "/srv/app/resize.py" = "/srv/app/resize.py".
Proof. reflexivity. Qed.

(** ** Traces *)

Lemma stdout_of_app (t1 t2 : list event) :
  stdout_of (t1 ++ t2) = (stdout_of t1 ++ stdout_of t2)%list.
Proof.
  induction t1 as [|ev t1 IH]; [reflexivity|].
  destruct ev; simpl; rewrite IH; reflexivity.
Qed.

Lemma probed_of_app (t1 t2 : list event) :
  probed_of (t1 ++ t2) = (probed_of t1 ++ probed_of t2)%list.
Proof.
  induction t1 as [|ev t1 IH]; [reflexivity|].
  destruct ev; simpl; rewrite IH; reflexivity.
Qed.

Lemma saved_of_app (t1 t2 : list event) :
  saved_of (t1 ++ t2) = (saved_of t1 ++ saved_of t2)%list.
Proof.
  induction t1 as [|ev t1 IH]; [reflexivity|].
  destruct ev; simpl; rewrite IH; reflexivity.
Qed.

Lemma touched_of_app (t1 t2 : list event) :
  touched_of (t1 ++ t2) = (touched_of t1 ++ touched_of t2)%list.
Proof.
  induction t1 as [|ev t1 IH]; [reflexivity|].
  destruct ev; simpl; rewrite IH; reflexivity.
Qed.

(** ** The monadic program and its closed form agree *)

Section Agreement.

Context (P : Platform).

Lemma resize_image_effect (file_path : string) (size : Z * Z) (w : World P) :
  resize_image P file_path size w =
  (Ok tt,
   mkWorld (fst (resize_effect P file_path size (disk w)))
     (trace w ++ snd (resize_effect P file_path size (disk w)))).
Proof.
  unfold resize_image, resize_effect, try_except, with_, bind, Image_open,
    Image_resize, Image_save, Image_close, print, emit.
  destruct w as [d t]; simpl.
  destruct (image_open P file_path d) as [img|e]; simpl.
  - destruct (image_resize P img size LANCZOS d) as [resized|e]; simpl.
    + destruct (image_save P resized file_path d) as [[[]|e] d']; simpl;
        repeat rewrite <- app_assoc; reflexivity.
    + repeat rewrite <- app_assoc; reflexivity.
  - repeat rewrite <- app_assoc; reflexivity.
Qed.

Lemma main_body_effect (env : Env) (i : Z) (w : World P) :
  main_body P env i w =
  (Ok tt,
   mkWorld (fst (body_effect P env i (disk w)))
     (trace w ++ snd (body_effect P env i (disk w)))).
Proof.
  unfold main_body, body_effect, bind, os_path_exists, print, emit,
    file_path_of.
  destruct w as [d t]; simpl.
  destruct (path_exists P (Py.join (current_dir env) (filename_of i)) d).
  - rewrite resize_image_effect; simpl.
    destruct (resize_effect P _ default_size d) as [d' t']; simpl.
    rewrite <- app_assoc; reflexivity.
  - simpl. rewrite <- app_assoc; reflexivity.
Qed.

Lemma for_effect (env : Env) (l : list Z) (w : World P) :
  for_ P l (main_body P env) w =
  (Ok tt,
   mkWorld (fst (loop_effect P env l (disk w)))
     (trace w ++ snd (loop_effect P env l (disk w)))).
Proof.
  revert w; induction l as [|i l IH]; intros [d t]; simpl.
  - unfold ret. rewrite app_nil_r. reflexivity.
  - unfold bind. rewrite main_body_effect; simpl.
    rewrite IH; simpl.
    destruct (body_effect P env i d) as [d1 t1]; simpl.
    destruct (loop_effect P env l d1) as [d2 t2]; simpl.
    rewrite app_assoc. reflexivity.
Qed.

Lemma loop_effect_app (env : Env) (l1 l2 : list Z) (d : FS P) :
  loop_effect P env (l1 ++ l2) d =
  (fst (loop_effect P env l2 (fst (loop_effect P env l1 d))),
   snd (loop_effect P env l1 d) ++
   snd (loop_effect P env l2 (fst (loop_effect P env l1 d))))%list.
Proof.
  revert d; induction l1 as [|i l1 IH]; intros d; simpl.
  - destruct (loop_effect P env l2 d); reflexivity.
  - destruct (body_effect P env i d) as [d1 t1]; simpl.
    rewrite IH.
    destruct (loop_effect P env l1 d1) as [d2 t2]; simpl.
    rewrite app_assoc. reflexivity.
Qed.

Lemma run_effect (env : Env) (d : FS P) :
  run P env d =
  mkWorld (fst (loop_effect P env (Py.range 1 51) d))
    (snd (loop_effect P env (Py.range 1 51) d)).
Proof.
  unfold run, main. rewrite for_effect. reflexivity.
Qed.

Lemma run_trace (env : Env) (d : FS P) :
  trace (run P env d) = snd (loop_effect P env (Py.range 1 51) d).
Proof. rewrite run_effect. reflexivity. Qed.

Lemma run_disk (env : Env) (d : FS P) :
  disk (run P env d) = fst (loop_effect P env (Py.range 1 51) d).
Proof. rewrite run_effect. reflexivity. Qed.

Lemma world_before_effect (env : Env) (d : FS P) (i : Z) :
  world_before P env d i =
  mkWorld (fst (loop_effect P env (Py.range 1 i) d))
    (snd (loop_effect P env (Py.range 1 i) d)).
Proof.
  unfold world_before. rewrite for_effect. reflexivity.
Qed.

Lemma main_returns (env : Env) (w : World P) :
  fst (main P env w) = Ok tt.
Proof. unfold main. rewrite for_effect. reflexivity. Qed.

End Agreement.

(** ** The index range and the file names *)

Lemma range_snoc (i : Z) :
  1 <= i -> Py.range 1 (i + 1) = (Py.range 1 i ++ [i])%list.
Proof.
  intros Hi. unfold Py.range.
  replace (Z.to_nat (i + 1 - 1)) with (S (Z.to_nat (i - 1))) by lia.
  rewrite seq_S, map_app. cbn [map Nat.add].
  replace (1 + Z.of_nat (Z.to_nat (i - 1))) with i by lia.
  reflexivity.
Qed.

Lemma in_range (lo hi i : Z) :
  In i (Py.range lo hi) <-> lo <= i < hi.
Proof.
  unfold Py.range. rewrite in_map_iff. split.
  - intros [k [Hk Hin]]. apply in_seq in Hin. lia.
  - intros H. exists (Z.to_nat (i - lo)). split; [lia|].
    apply in_seq. lia.
Qed.

Lemma seq_from (a m : nat) : seq a m = map (Nat.add a) (seq 0 m).
Proof.
  revert a; induction m as [|m IH]; intros a; [reflexivity|].
  cbn [seq map]. rewrite Nat.add_0_r. f_equal.
  rewrite (IH (S a)), (IH 1%nat), map_map.
  apply map_ext. intros k. lia.
Qed.

Lemma range_split (i : Z) :
  1 <= i <= 50 ->
  Py.range 1 51 = (Py.range 1 i ++ i :: Py.range (i + 1) 51)%list.
Proof.
  intros Hi. unfold Py.range.
  replace (Z.to_nat (51 - 1)) with (Z.to_nat (i - 1) + S (Z.to_nat (51 - (i + 1))))%nat by lia.
  rewrite seq_app, map_app. f_equal.
  cbn [seq map Nat.add]. f_equal; [lia|].
  rewrite seq_from, map_map.
  apply map_ext. intros k. lia.
Qed.

Lemma filenames_checked :
  forallb
    (fun i =>
       (String.eqb (filename_of i) (three_digit_png i)
        && (index_of_filename (filename_of i) =? i)
        && negb (Py.has_sep (filename_of i)))%bool)
    (Py.range 1 51) = true.
Proof. vm_compute. reflexivity. Qed.

Lemma filename_facts (i : Z) :
  1 <= i <= 50 ->
  filename_of i = three_digit_png i /\
  index_of_filename (filename_of i) = i /\
  Py.has_sep (filename_of i) = false.
Proof.
  intros Hi.
  assert (Hin : In i (Py.range 1 51)) by (apply in_range; lia).
  pose proof (proj1 (forallb_forall _ _) filenames_checked i Hin) as H.
  apply andb_prop in H. destruct H as [H Hsep].
  apply andb_prop in H. destruct H as [Hname Hidx].
  repeat split.
  - apply String.eqb_eq. exact Hname.
  - apply Z.eqb_eq. exact Hidx.
  - apply negb_true_iff. exact Hsep.
Qed.

Lemma filename_of_inj (i j : Z) :
  1 <= i <= 50 -> 1 <= j <= 50 -> filename_of i = filename_of j -> i = j.
Proof.
  intros Hi Hj E.
  destruct (filename_facts i Hi) as (_ & Ei & _).
  destruct (filename_facts j Hj) as (_ & Ej & _).
  rewrite <- Ei, <- Ej, E. reflexivity.
Qed.

(** ** Paths *)

Lemma append_inv_head (a b c : string) : a ++ b = a ++ c -> b = c.
Proof.
  induction a as [|x a IH]; simpl; intros E; [exact E|].
  injection E as E. apply IH. exact E.
Qed.

Lemma has_sep_startswith (n : string) :
  Py.has_sep n = false -> Py.startswith "/" n = false.
Proof.
  destruct n as [|c n]; [reflexivity|].
  cbn [Py.has_sep Py.startswith]. intros H.
  apply orb_false_iff in H. destruct H as [H _].
  rewrite Ascii.eqb_sym, H. reflexivity.
Qed.

Lemma join_no_sep (a n : string) :
  Py.has_sep n = false ->
  Py.join a n =
  (if (String.eqb a EmptyString || Py.endswith_sep a)%bool then a
   else a ++ "/") ++ n.
Proof.
  intros H. unfold Py.join. rewrite (has_sep_startswith n H).
  destruct (String.eqb a EmptyString || Py.endswith_sep a)%bool;
    [reflexivity|].
  induction a as [|x a IH]; simpl; [reflexivity|].
  f_equal. exact IH.
Qed.

Lemma join_inj (a b c : string) :
  Py.has_sep b = false -> Py.has_sep c = false ->
  Py.join a b = Py.join a c -> b = c.
Proof.
  intros Hb Hc. rewrite (join_no_sep a b Hb), (join_no_sep a c Hc).
  apply append_inv_head.
Qed.

Lemma file_path_of_inj (env : Env) (i j : Z) :
  1 <= i <= 50 -> 1 <= j <= 50 ->
  file_path_of env i = file_path_of env j -> i = j.
Proof.
  intros Hi Hj E. unfold file_path_of in E.
  apply filename_of_inj; [exact Hi|exact Hj|].
  destruct (filename_facts i Hi) as (_ & _ & Si).
  destruct (filename_facts j Hj) as (_ & _ & Sj).
  exact (join_inj _ _ _ Si Sj E).
Qed.

Lemma rsplit_no_sep (n : string) :
  Py.has_sep n = false -> Py.rsplit_sep n = (EmptyString, n).
Proof.
  destruct n as [|c n]; [reflexivity|].
  simpl. intros H. apply orb_false_iff in H. destruct H as [Hc Hn].
  rewrite Hn, Hc. reflexivity.
Qed.

Lemma endswith_has_sep (a n : string) :
  Py.endswith_sep a = true -> Py.has_sep (a ++ n) = true.
Proof.
  induction a as [|c a IH]; [discriminate|].
  intros H. simpl. destruct a as [|c' a].
  - simpl in H. rewrite H. reflexivity.
  - rewrite IH; [apply orb_true_r|exact H].
Qed.

Lemma basename_after_sep (a n : string) :
  Py.endswith_sep a = true -> Py.has_sep n = false ->
  Py.basename (a ++ n) = n.
Proof.
  unfold Py.basename. intros Ha Hn.
  induction a as [|c a IH]; [discriminate|].
  destruct a as [|c' a].
  - simpl in Ha. simpl. rewrite Hn, Ha. reflexivity.
  - change ((String c (String c' a)) ++ n)
      with (String c (String c' a ++ n)).
    cbn [Py.rsplit_sep].
    rewrite (endswith_has_sep (String c' a) n Ha).
    specialize (IH Ha).
    destruct (Py.rsplit_sep (String c' a ++ n)) as [h t]. exact IH.
Qed.

Lemma endswith_sep_snoc (a : string) : Py.endswith_sep (a ++ "/") = true.
Proof.
  induction a as [|c a IH]; [reflexivity|].
  simpl. destruct (a ++ "/") eqn:E; [|exact IH].
  destruct a; discriminate E.
Qed.

Lemma basename_join (a n : string) :
  Py.has_sep n = false -> Py.basename (Py.join a n) = n.
Proof.
  intros Hn. rewrite (join_no_sep a n Hn).
  destruct (String.eqb a EmptyString) eqn:Ea.
  - apply String.eqb_eq in Ea. subst a. simpl.
    unfold Py.basename. rewrite (rsplit_no_sep n Hn). reflexivity.
  - simpl. destruct (Py.endswith_sep a) eqn:Es.
    + apply basename_after_sep; assumption.
    + apply basename_after_sep; [apply endswith_sep_snoc|exact Hn].
Qed.

Lemma basename_file_path_of (env : Env) (i : Z) :
  1 <= i <= 50 -> Py.basename (file_path_of env i) = filename_of i.
Proof.
  intros Hi. unfold file_path_of. apply basename_join.
  apply (filename_facts i Hi).
Qed.

Lemma in_targets (env : Env) (p : string) :
  In p (targets env) <-> exists i, 1 <= i <= 50 /\ p = file_path_of env i.
Proof.
  unfold targets. rewrite in_map_iff. split.
  - intros [i [E Hin]]. exists i. apply in_range in Hin. split; [lia|auto].
  - intros [i [Hi E]]. exists i. split; [auto|apply in_range; lia].
Qed.

(** ** One call of [resize_image] *)

Section ResizeImage.

Context (P : Platform).

Lemma resize_effect_stdout (p : string) (size : Z * Z) (d : FS P) :
  stdout_of (snd (resize_effect P p size d)) =
  [match raised_in P p size d with
   | Some e => error_line p e
   | None => success_line p
   end].
Proof.
  unfold resize_effect, raised_in.
  destruct (image_open P p d) as [img|e]; [|reflexivity].
  destruct (image_resize P img size LANCZOS d) as [resized|e]; [|reflexivity].
  destruct (image_save P resized p d) as [[[]|e] d']; reflexivity.
Qed.

Lemma resize_effect_touched (p : string) (size : Z * Z) (d : FS P) :
  Forall (eq p) (touched_of (snd (resize_effect P p size d))) /\
  probed_of (snd (resize_effect P p size d)) = [].
Proof.
  unfold resize_effect.
  destruct (image_open P p d) as [img|e]; [|simpl; auto].
  destruct (image_resize P img size LANCZOS d) as [resized|e]; [|simpl; auto].
  destruct (image_save P resized p d) as [[[]|e] d']; simpl; auto.
Qed.

Lemma resize_effect_no_save (p : string) (size : Z * Z) (d : FS P) :
  reaches_save P p size d = false ->
  fst (resize_effect P p size d) = d /\
  saved_of (snd (resize_effect P p size d)) = [].
Proof.
  unfold resize_effect, reaches_save.
  destruct (image_open P p d) as [img|e]; [|auto].
  destruct (image_resize P img size LANCZOS d) as [resized|e]; [|auto].
  discriminate.
Qed.

Lemma resize_effect_save (p : string) (size : Z * Z) (d : FS P) :
  reaches_save P p size d = true ->
  exists img resized,
    image_open P p d = Ok img /\
    image_resize P img size LANCZOS d = Ok resized /\
    fst (resize_effect P p size d) = snd (image_save P resized p d) /\
    saved_of (snd (resize_effect P p size d)) = [p].
Proof.
  unfold resize_effect, reaches_save.
  destruct (image_open P p d) as [img|e] eqn:Eo; [|discriminate].
  destruct (image_resize P img size LANCZOS d) as [resized|e] eqn:Er;
    [|discriminate].
  intros _. exists img, resized.
  destruct (image_save P resized p d) as [[[]|e] d']; simpl;
    repeat split; auto.
Qed.

(** Either nothing was written, or the disk is the one a save to [p]
    left. *)
Lemma resize_effect_disk (p : string) (size : Z * Z) (d : FS P) :
  fst (resize_effect P p size d) = d \/
  exists resized,
    fst (resize_effect P p size d) = snd (image_save P resized p d).
Proof.
  destruct (reaches_save P p size d) eqn:E.
  - destruct (resize_effect_save p size d E) as (img & resized & _ & _ & H & _).
    right. exists resized. exact H.
  - left. apply (resize_effect_no_save p size d E).
Qed.

End ResizeImage.

(** ** One turn of the loop, and the loop *)

Section Loop.

Context (P : Platform) (env : Env).

Lemma body_effect_probed (i : Z) (d : FS P) :
  probed_of (snd (body_effect P env i d)) = [file_path_of env i].
Proof.
  unfold body_effect.
  destruct (path_exists P (file_path_of env i) d); [|reflexivity].
  destruct (resize_effect_touched P (file_path_of env i) default_size d)
    as [_ H].
  destruct (resize_effect P (file_path_of env i) default_size d) as [d' t].
  simpl in *. rewrite H. reflexivity.
Qed.

Lemma body_effect_touched (i : Z) (d : FS P) :
  Forall (eq (file_path_of env i)) (touched_of (snd (body_effect P env i d))).
Proof.
  unfold body_effect.
  destruct (path_exists P (file_path_of env i) d).
  - destruct (resize_effect_touched P (file_path_of env i) default_size d)
      as [H _].
    destruct (resize_effect P (file_path_of env i) default_size d) as [d' t].
    simpl in *. constructor; auto.
  - simpl. constructor; auto.
Qed.

Lemma body_effect_stdout (i : Z) (d : FS P) :
  stdout_of (snd (body_effect P env i d)) =
  [if path_exists P (file_path_of env i) d then
     match raised_in P (file_path_of env i) default_size d with
     | Some e => error_line (file_path_of env i) e
     | None => success_line (file_path_of env i)
     end
   else not_found_line (filename_of i)].
Proof.
  unfold body_effect.
  destruct (path_exists P (file_path_of env i) d); [|reflexivity].
  pose proof (resize_effect_stdout P (file_path_of env i) default_size d) as H.
  destruct (resize_effect P (file_path_of env i) default_size d) as [d' t].
  simpl in *. exact H.
Qed.

Lemma body_effect_disk (i : Z) (d : FS P) :
  fst (body_effect P env i d) = d \/
  exists resized,
    fst (body_effect P env i d) =
    snd (image_save P resized (file_path_of env i) d).
Proof.
  unfold body_effect.
  destruct (path_exists P (file_path_of env i) d); [|left; reflexivity].
  pose proof (resize_effect_disk P (file_path_of env i) default_size d) as H.
  destruct (resize_effect P (file_path_of env i) default_size d) as [d' t].
  simpl in *. exact H.
Qed.

Lemma loop_effect_probed (l : list Z) (d : FS P) :
  probed_of (snd (loop_effect P env l d)) = map (file_path_of env) l.
Proof.
  revert d; induction l as [|i l IH]; intros d; [reflexivity|].
  simpl. pose proof (body_effect_probed i d) as Hb.
  destruct (body_effect P env i d) as [d1 t1].
  specialize (IH d1).
  destruct (loop_effect P env l d1) as [d2 t2].
  simpl in *. rewrite probed_of_app, Hb, IH. reflexivity.
Qed.

Lemma loop_effect_touched (l : list Z) (d : FS P) :
  Forall (fun p => In p (map (file_path_of env) l))
    (touched_of (snd (loop_effect P env l d))).
Proof.
  revert d; induction l as [|i l IH]; intros d; [constructor|].
  simpl. pose proof (body_effect_touched i d) as Hb.
  destruct (body_effect P env i d) as [d1 t1].
  specialize (IH d1).
  destruct (loop_effect P env l d1) as [d2 t2].
  simpl in *. rewrite touched_of_app. apply Forall_app. split.
  - eapply Forall_impl; [|exact Hb]. intros p E. left. exact E.
  - eapply Forall_impl; [|exact IH]. intros p Hp. right. exact Hp.
Qed.

Lemma loop_effect_stdout_length (l : list Z) (d : FS P) :
  List.length (stdout_of (snd (loop_effect P env l d))) = List.length l.
Proof.
  revert d; induction l as [|i l IH]; intros d; [reflexivity|].
  simpl. pose proof (body_effect_stdout i d) as Hb.
  destruct (body_effect P env i d) as [d1 t1].
  specialize (IH d1).
  destruct (loop_effect P env l d1) as [d2 t2].
  simpl in *. rewrite stdout_of_app, length_app, Hb, IH. reflexivity.
Qed.

Lemma world_before_next (d : FS P) (i : Z) :
  1 <= i ->
  main_body P env i (world_before P env d i) =
  (Ok tt, world_before P env d (i + 1)).
Proof.
  intros Hi. rewrite main_body_effect, !world_before_effect.
  rewrite (range_snoc i Hi), loop_effect_app. simpl.
  destruct (body_effect P env i (fst (loop_effect P env (Py.range 1 i) d)))
    as [d1 t1].
  simpl. rewrite app_nil_r. reflexivity.
Qed.

Lemma world_before_last (d : FS P) :
  world_before P env d 51 = run P env d.
Proof. reflexivity. Qed.

End Loop.

(** ** The in-memory platform honours what is asked of the library *)

Lemma mem_write_same (p : string) (bs : list byte) (d : Mem.fs) :
  Mem.write p bs d p = Some bs.
Proof. unfold Mem.write. rewrite String.eqb_refl. reflexivity. Qed.

Lemma mem_write_other (p q : string) (bs : list byte) (d : Mem.fs) :
  q <> p -> Mem.write p bs d q = d q.
Proof.
  intros H. unfold Mem.write.
  destruct (String.eqb_spec q p) as [E|_]; [contradiction|reflexivity].
Qed.

Lemma mem_decode_encode (size : Z * Z) (bs : list byte) :
  Mem.encode size = Some bs -> Mem.decode bs = Some size.
Proof.
  destruct size as [w h]. unfold Mem.encode.
  destruct ((0 <? w) && (0 <? h))%bool eqn:Hpos; [|discriminate].
  apply andb_prop in Hpos. destruct Hpos as [Hw Hh].
  apply Z.ltb_lt in Hw. apply Z.ltb_lt in Hh.
  destruct (Byte.of_N (Z.to_N w)) as [bw|] eqn:Ew; [|discriminate].
  destruct (Byte.of_N (Z.to_N h)) as [bh|] eqn:Eh; [|discriminate].
  intros E. injection E as E. subst bs.
  apply Byte.to_of_N in Ew. apply Byte.to_of_N in Eh.
  cbn [Mem.decode]. replace (Byte.eqb x89 x89) with true by reflexivity.
  rewrite Ew, Eh, !Z2N.id by lia. reflexivity.
Qed.

Lemma mem_honours_size : resize_honours_size Mem.platform.
Proof.
  intros img size resample d resized. simpl. unfold Mem.resize.
  destruct ((0 <? fst size) && (0 <? snd size))%bool; [|discriminate].
  intros E. injection E as E. symmetry. exact E.
Qed.

Lemma mem_roundtrip : save_roundtrip Mem.platform.
Proof.
  intros img p d d'. unfold decoded_size. simpl. unfold Mem.save.
  destruct (Mem.encode img) as [bs|] eqn:Ee; [|discriminate].
  intros E. injection E as E. subst d'.
  unfold Mem.exists_, Mem.open. rewrite mem_write_same.
  rewrite (mem_decode_encode img bs Ee). split; reflexivity.
Qed.

Lemma mem_save_other (img : Z * Z) (p q : string) (d : Mem.fs) :
  q <> p -> snd (Mem.save img p d) q = d q.
Proof.
  intros H. unfold Mem.save.
  destruct (Mem.encode img); simpl; apply mem_write_other; exact H.
Qed.

Lemma mem_keeps_others : save_keeps_others Mem.platform.
Proof.
  intros img p d q H. unfold decoded_size. simpl.
  unfold Mem.exists_, Mem.open.
  rewrite (mem_save_other img p q d H). split; reflexivity.
Qed.

Lemma mem_writes_only_its_path : save_writes_only_its_path Mem.platform.
Proof. intros img p d q H. simpl. apply mem_save_other. exact H. Qed.

Lemma mem_no_fault : no_fault Mem.platform.
Proof.
  split.
  - intros p d img _. exists default_size. reflexivity.
  - intros img p d Hs _. simpl in *. unfold Mem.save.
    rewrite Hs. reflexivity.
Qed.

(** ** The properties of the specification *)

(** C2: an exception raised while decoding, resampling or encoding never
    leaves [resize_image]: the call returns normally; the exception of the
    library call that failed is printed on one line that carries the file
    path and [str(e)]; and [main] itself returns normally, having probed
    every one of the fifty paths. *)
Theorem resize_image_contains_failures
    (P : Platform) (file_path : string) (size : Z * Z) (w : World P) :
  fst (resize_image P file_path size w) = Ok tt /\
  (forall e,
     raised_in P file_path size (disk w) = Some e ->
     stdout_of (trace (snd (resize_image P file_path size w))) =
     (stdout_of (trace w) ++
      [("Error processing " ++ file_path ++ ": " ++ exc_str e)%string])%list) /\
  (forall env d,
     fst (main P env (boot P d)) = Ok tt /\
     probed_of (trace (run P env d)) = targets env).
Proof.
  split; [|split].
  - rewrite resize_image_effect. reflexivity.
  - intros e He. rewrite resize_image_effect. simpl.
    rewrite stdout_of_app, resize_effect_stdout, He. reflexivity.
  - intros env d. split; [apply main_returns|].
    rewrite run_trace. apply loop_effect_probed.
Qed.

Lemma resize_image_contains_failures_witness :
  raised_in Mem.platform "/srv/app/003.png" default_size Mem.scenario =
    Some (mkException "UnidentifiedImageError"
            "cannot identify image file /srv/app/003.png") /\
  stdout_of
    (trace (snd (resize_image Mem.platform "/srv/app/003.png" default_size
                   (boot Mem.platform Mem.scenario)))) =
  ["Error processing /srv/app/003.png: cannot identify image file /srv/app/003.png"].
Proof.
  split; [reflexivity|].
  exact (proj1 (proj2 (resize_image_contains_failures Mem.platform
                         "/srv/app/003.png" default_size
                         (boot Mem.platform Mem.scenario)))
           (mkException "UnidentifiedImageError"
              "cannot identify image file /srv/app/003.png")
           eq_refl).
Defined.

(** C3: the loop considers the integers 1 to 50 and no others; the name
    derived from each is its three decimal digits followed by ".png"; the
    path is that name joined to the directory of the script's own absolute
    location; nothing else is ever probed, opened or written; and when
    [__file__] is absolute the working directory plays no part. *)
Theorem main_considers_exactly_the_fifty_paths
    (P : Platform) (env : Env) (d : FS P) :
  Py.range 1 51 = map Z.of_nat (seq 1 50) /\
  probed_of (trace (run P env d)) =
    map (fun i =>
           Py.join (Py.dirname (Py.abspath (cwd env) (dunder_file env)))
             (three_digit_png i))
      (Py.range 1 51) /\
  Forall (fun p => In p (probed_of (trace (run P env d))))
    (touched_of (trace (run P env d))) /\
  (forall rest cwd1 cwd2,
     targets (mkEnv (String "/" rest) cwd1) =
     targets (mkEnv (String "/" rest) cwd2)).
Proof.
  assert (Hprobed : probed_of (trace (run P env d)) = targets env).
  { rewrite run_trace. apply loop_effect_probed. }
  split; [reflexivity|]. split; [|split].
  - rewrite Hprobed. unfold targets. apply map_ext_in.
    intros i Hi. apply in_range in Hi.
    unfold file_path_of, current_dir.
    destruct (filename_facts i) as (E & _); [lia|].
    rewrite E. reflexivity.
  - rewrite Hprobed, run_trace. apply loop_effect_touched.
  - intros rest cwd1 cwd2. reflexivity.
Qed.

(** C4: whatever the disk and the image library do, [main] goes through
    all fifty indices, one console line each, returns normally, and the
    process exits with status 0. *)
Theorem main_always_completes (P : Platform) (env : Env) (d : FS P) :
  fst (main P env (boot P d)) = Ok tt /\
  exit_status P env d = 0 /\
  probed_of (trace (run P env d)) = map (file_path_of env) (Py.range 1 51) /\
  List.length (Py.range 1 51) = 50%nat /\
  List.length (stdout_of (trace (run P env d))) = 50%nat.
Proof.
  split; [apply main_returns|].
  split; [unfold exit_status; rewrite main_returns; reflexivity|].
  rewrite run_trace.
  split; [apply loop_effect_probed|].
  split; [reflexivity|].
  rewrite loop_effect_stdout_length. reflexivity.
Qed.

(** C5: when the loop reaches an index of 1..50 whose path does not exist,
    that turn prints "File not found: NNN.png", returns normally so that
    the loop goes on with the next index, and leaves the disk exactly as
    it was: the path still does not exist. *)
Theorem missing_file_is_reported_and_skipped
    (P : Platform) (env : Env) (d : FS P) (i : Z) :
  1 <= i <= 50 ->
  path_exists P (file_path_of env i) (disk (world_before P env d i)) = false ->
  main_body P env i (world_before P env d i) =
    (Ok tt, world_before P env d (i + 1)) /\
  trace (world_before P env d (i + 1)) =
    (trace (world_before P env d i) ++
     [EvExists (file_path_of env i) false;
      EvPrint ("File not found: " ++ three_digit_png i)%string])%list /\
  disk (world_before P env d (i + 1)) = disk (world_before P env d i) /\
  path_exists P (file_path_of env i) (disk (world_before P env d (i + 1)))
    = false.
Proof.
  intros Hi Hmissing.
  pose proof (world_before_next P env d i (proj1 Hi)) as Hnext.
  split; [exact Hnext|].
  rewrite main_body_effect in Hnext. injection Hnext as Hnext.
  rewrite <- Hnext. unfold body_effect. rewrite Hmissing.
  destruct (filename_facts i Hi) as (E & _).
  unfold not_found_line. rewrite E. simpl.
  repeat split; auto.
Qed.

Lemma missing_file_is_reported_and_skipped_witness :
  trace (world_before Mem.platform Mem.env Mem.scenario 3) =
    (trace (world_before Mem.platform Mem.env Mem.scenario 2) ++
     [EvExists "/srv/app/002.png" false;
      EvPrint "File not found: 002.png"])%list /\
  Mem.exists_ "/srv/app/002.png"
    (disk (world_before Mem.platform Mem.env Mem.scenario 3)) = false.
Proof.
  destruct (missing_file_is_reported_and_skipped Mem.platform Mem.env
              Mem.scenario 2) as (_ & Ht & _ & He).
  - lia.
  - reflexivity.
  - split; [exact Ht|exact He].
Defined.

(** C6: [resize_image] with its default size first opens the image at the
    path it is given; with the image it gets it asks for a resize to
    (128, 128), width and height, with the LANCZOS filter; the image that
    comes back is 128x128 and is saved to the same path, and the disk the
    call leaves is the one that save left.  The size of the resized image
    is the library's part: it resizes to the size asked for. *)
Theorem resize_image_decodes_resamples_and_saves_in_place
    (P : Platform) (file_path : string) (w : World P) :
  resize_honours_size P ->
  default_size = (128, 128) /\
  (exists rest,
     trace (snd (resize_image P file_path default_size w)) =
     (trace w ++
      EvOpen file_path (raised_of (image_open P file_path (disk w))) ::
      rest)%list) /\
  (forall img,
     image_open P file_path (disk w) = Ok img ->
     exists rest,
       trace (snd (resize_image P file_path default_size w)) =
       (trace w ++
        EvOpen file_path None ::
        EvResize (128, 128) LANCZOS
          (raised_of (image_resize P img (128, 128) LANCZOS (disk w))) ::
        rest)%list) /\
  (forall img resized,
     image_open P file_path (disk w) = Ok img ->
     image_resize P img (128, 128) LANCZOS (disk w) = Ok resized ->
     image_size P resized = (128, 128) /\
     disk (snd (resize_image P file_path default_size w)) =
       snd (image_save P resized file_path (disk w)) /\
     exists rest,
       trace (snd (resize_image P file_path default_size w)) =
       (trace w ++
        EvOpen file_path None ::
        EvResize (128, 128) LANCZOS None ::
        EvSave file_path
          (raised_of (fst (image_save P resized file_path (disk w)))) ::
        rest)%list).
Proof.
  intros Hsize. split; [reflexivity|].
  rewrite resize_image_effect. cbn [snd trace disk].
  unfold resize_effect, default_size.
  split; [|split].
  - destruct (image_open P file_path (disk w)) as [img|e];
      [|eexists; reflexivity].
    destruct (image_resize P img (128, 128) LANCZOS (disk w))
      as [resized|e]; [|eexists; reflexivity].
    destruct (image_save P resized file_path (disk w)) as [[[]|e] d'];
      eexists; reflexivity.
  - intros img Hopen. rewrite Hopen.
    destruct (image_resize P img (128, 128) LANCZOS (disk w))
      as [resized|e]; [|eexists; reflexivity].
    destruct (image_save P resized file_path (disk w)) as [[[]|e] d'];
      eexists; reflexivity.
  - intros img resized Hopen Hresize.
    split; [exact (Hsize _ _ _ _ _ Hresize)|].
    rewrite Hopen, Hresize.
    destruct (image_save P resized file_path (disk w)) as [[[]|e] d'];
      simpl; (split; [reflexivity|eexists; reflexivity]).
Qed.

Lemma resize_image_decodes_resamples_and_saves_in_place_witness :
  Mem.decode (Mem.png xc8 x64) = Some (200, 100) /\
  disk (snd (resize_image Mem.platform "/srv/app/001.png" default_size
               (boot Mem.platform Mem.scenario))) =
    snd (Mem.save (128, 128) "/srv/app/001.png" Mem.scenario).
Proof.
  split; [reflexivity|].
  destruct (resize_image_decodes_resamples_and_saves_in_place Mem.platform
              "/srv/app/001.png" (boot Mem.platform Mem.scenario)
              mem_honours_size) as (_ & _ & _ & H).
  exact (proj1 (proj2 (H (200, 100) (128, 128) eq_refl eq_refl))).
Defined.

(** C9: when opening or resampling raises, [save] is never called: the
    whole disk, and with it the bytes at the path, is what it was before
    the call.  The bytes at the path can differ after the call only when
    the call got as far as [save], and then the disk is the one that save
    left. *)
Theorem failure_before_save_leaves_file_untouched
    (P : Platform) (file_path : string) (size : Z * Z) (w : World P) :
  ((exists e, image_open P file_path (disk w) = Raise e) \/
   (exists img e,
      image_open P file_path (disk w) = Ok img /\
      image_resize P img size LANCZOS (disk w) = Raise e) ->
   disk (snd (resize_image P file_path size w)) = disk w /\
   saved_of (trace (snd (resize_image P file_path size w))) =
     saved_of (trace w) /\
   read_bytes P file_path (disk (snd (resize_image P file_path size w))) =
     read_bytes P file_path (disk w)) /\
  (read_bytes P file_path (disk (snd (resize_image P file_path size w))) <>
     read_bytes P file_path (disk w) ->
   exists img resized,
     image_open P file_path (disk w) = Ok img /\
     image_resize P img size LANCZOS (disk w) = Ok resized /\
     disk (snd (resize_image P file_path size w)) =
       snd (image_save P resized file_path (disk w))).
Proof.
  rewrite resize_image_effect. simpl. split.
  - intros Hfail.
    assert (Hno : reaches_save P file_path size (disk w) = false).
    { unfold reaches_save.
      destruct Hfail as [[e He]|(img & e & Ho & Hr)].
      - rewrite He. reflexivity.
      - rewrite Ho, Hr. reflexivity. }
    destruct (resize_effect_no_save P file_path size (disk w) Hno)
      as [Hd Hs].
    rewrite saved_of_app, Hs, Hd, app_nil_r. auto.
  - intros Hchanged.
    destruct (reaches_save P file_path size (disk w)) eqn:E.
    + destruct (resize_effect_save P file_path size (disk w) E)
        as (img & resized & Ho & Hr & Hd & _).
      exists img, resized. auto.
    + destruct (resize_effect_no_save P file_path size (disk w) E)
        as [Hd _].
      rewrite Hd in Hchanged. contradiction Hchanged. reflexivity.
Qed.

Lemma failure_before_save_leaves_file_untouched_witness :
  Mem.open "/srv/app/003.png" Mem.scenario =
    Raise (mkException "UnidentifiedImageError"
             "cannot identify image file /srv/app/003.png") /\
  disk (snd (resize_image Mem.platform "/srv/app/003.png" default_size
               (boot Mem.platform Mem.scenario))) = Mem.scenario.
Proof.
  split; [reflexivity|].
  apply (proj1 (failure_before_save_leaves_file_untouched Mem.platform
                  "/srv/app/003.png" default_size
                  (boot Mem.platform Mem.scenario))).
  left. eexists. reflexivity.
Defined.

(** C10: the turn of the loop for an index of 1..50 adds exactly one line
    to the console.  The line is of exactly one kind: the success line of
    that index's path, and then the events of the turn show the save
    returning before the line is printed; or the error line of that path
    with the exception that was raised; or the not-found line of that
    index's file name.  The console of a run is the fifty lines so added. *)
Theorem one_console_line_per_index
    (P : Platform) (env : Env) (d : FS P) (i : Z) :
  1 <= i <= 50 ->
  let before := world_before P env d i in
  let after := world_before P env d (i + 1) in
  let p := file_path_of env i in
  (exists l,
     stdout_of (trace after) = (stdout_of (trace before) ++ [l])%list /\
     ((l = success_line p /\ kinds_of_line l = [KSuccess] /\
       raised_in P p default_size (disk before) = None /\
       trace after =
         (trace before ++
          [EvExists p true; EvOpen p None; EvResize (128, 128) LANCZOS None;
           EvSave p None; EvPrint l; EvClose])%list) \/
      (exists e,
         l = error_line p e /\ kinds_of_line l = [KError] /\
         raised_in P p default_size (disk before) = Some e) \/
      (l = not_found_line (three_digit_png i) /\
       kinds_of_line l = [KNotFound] /\
       path_exists P p (disk before) = false))) /\
  stdout_of (trace (world_before P env d 1)) = [] /\
  world_before P env d 51 = run P env d /\
  List.length (stdout_of (trace (run P env d))) = 50%nat.
Proof.
  intros Hi before after p.
  split; [|split; [reflexivity|split; [reflexivity|]]].
  - pose proof (world_before_next P env d i (proj1 Hi)) as Hnext.
    rewrite main_body_effect in Hnext. injection Hnext as Hnext.
    fold before in Hnext. subst after. rewrite <- Hnext.
    cbn [trace disk].
    pose proof (body_effect_stdout P env i (disk before)) as Hout.
    fold p in Hout.
    eexists. split; [rewrite stdout_of_app, Hout; reflexivity|].
    unfold body_effect. fold p.
    destruct (path_exists P p (disk before)) eqn:Hex.
    + unfold raised_in, resize_effect, default_size.
      destruct (image_open P p (disk before)) as [img|e].
      * destruct (image_resize P img (128, 128) LANCZOS (disk before))
          as [resized|e].
        -- destruct (image_save P resized p (disk before)) as [[[]|e] d'].
           ++ left. simpl. repeat split; reflexivity.
           ++ right. left. exists e. simpl. repeat split; reflexivity.
        -- right. left. exists e. simpl. repeat split; reflexivity.
      * right. left. exists e. simpl. repeat split; reflexivity.
    + right. right. destruct (filename_facts i Hi) as (E & _).
      rewrite E. repeat split; reflexivity.
  - rewrite run_trace, loop_effect_stdout_length. reflexivity.
Qed.

Lemma one_console_line_per_index_witness :
  1 <= 3 <= 50 /\
  exists l,
    stdout_of (trace (world_before Mem.platform Mem.env Mem.scenario (3 + 1))) =
    (stdout_of (trace (world_before Mem.platform Mem.env Mem.scenario 3)) ++
     [l])%list.
Proof.
  split; [lia|].
  destruct (one_console_line_per_index Mem.platform Mem.env Mem.scenario 3)
    as ((l & Hl & _) & _).
  - lia.
  - exists l. exact Hl.
Defined.

(** ** What a run leaves alone, and what it leaves 128x128 *)

Section Frame.

Context (P : Platform) (env : Env).

(** An observation of the disk that no save to another path changes is
    not changed by a loop over indices with other paths. *)
Lemma loop_effect_frame {X : Type} (obs : FS P -> X) (q : string) :
  (forall img p d, q <> p -> obs (snd (image_save P img p d)) = obs d) ->
  forall l d,
    (forall i, In i l -> q <> file_path_of env i) ->
    obs (fst (loop_effect P env l d)) = obs d.
Proof.
  intros Hobs l. induction l as [|i l IH]; intros d Hl; [reflexivity|].
  simpl. pose proof (body_effect_disk P env i d) as Hb.
  destruct (body_effect P env i d) as [d1 t1].
  assert (IH1 := IH d1 (fun j Hj => Hl j (or_intror Hj))).
  destruct (loop_effect P env l d1) as [d2 t2].
  simpl in *. rewrite IH1.
  destruct Hb as [E|[resized E]]; rewrite E; [reflexivity|].
  apply Hobs. apply Hl. left. reflexivity.
Qed.

Lemma loop_effect_split (l1 l2 : list Z) (i : Z) (d : FS P) :
  let d1 := fst (loop_effect P env l1 d) in
  let d2 := fst (body_effect P env i d1) in
  fst (loop_effect P env (l1 ++ i :: l2) d) =
    fst (loop_effect P env l2 d2) /\
  snd (loop_effect P env (l1 ++ i :: l2) d) =
    (snd (loop_effect P env l1 d) ++
     snd (body_effect P env i d1) ++
     snd (loop_effect P env l2 d2))%list.
Proof.
  intros d1 d2. rewrite loop_effect_app. fold d1. subst d2.
  cbn [loop_effect].
  destruct (body_effect P env i d1) as [d2 t2]. cbn [fst snd].
  destruct (loop_effect P env l2 d2) as [d3 t3].
  split; reflexivity.
Qed.

Lemma raised_in_none (p : string) (size : Z * Z) (d : FS P) :
  raised_in P p size d = None ->
  exists img resized d',
    image_open P p d = Ok img /\
    image_resize P img size LANCZOS d = Ok resized /\
    image_save P resized p d = (Ok tt, d') /\
    fst (resize_effect P p size d) = d'.
Proof.
  unfold raised_in, resize_effect.
  destruct (image_open P p d) as [img|e] eqn:Eo; [|discriminate].
  destruct (image_resize P img size LANCZOS d) as [resized|e] eqn:Er;
    [|discriminate].
  destruct (image_save P resized p d) as [[[]|e] d'] eqn:Es; [|discriminate].
  intros _. exists img, resized, d'. repeat split; auto.
Qed.

Lemma decoded_size_open (p : string) (d : FS P) (size : Z * Z) :
  decoded_size P p d = Some size -> exists img, image_open P p d = Ok img.
Proof.
  unfold decoded_size.
  destruct (image_open P p d) as [img|e]; [|discriminate].
  intros _. exists img. reflexivity.
Qed.

Section WithLibrary.

Hypothesis Hsize : resize_honours_size P.
Hypothesis Hround : save_roundtrip P.
Hypothesis Hothers : save_keeps_others P.

Lemma loop_keeps_other_sprite (q : string) (l : list Z) (d : FS P) :
  (forall i, In i l -> q <> file_path_of env i) ->
  path_exists P q (fst (loop_effect P env l d)) = path_exists P q d /\
  decoded_size P q (fst (loop_effect P env l d)) = decoded_size P q d.
Proof.
  intros Hl. split.
  - apply (loop_effect_frame (path_exists P q) q); [|exact Hl].
    intros img p d0 Hq. apply (Hothers img p d0 q Hq).
  - apply (loop_effect_frame (decoded_size P q) q); [|exact Hl].
    intros img p d0 Hq. apply (Hothers img p d0 q Hq).
Qed.

Lemma saved_sprite_is_valid (p : string) (d d' : FS P) (img resized : Img P) :
  image_resize P img default_size LANCZOS d = Ok resized ->
  image_save P resized p d = (Ok tt, d') ->
  valid_sprite P p d'.
Proof.
  intros Hr Hs. destruct (Hround resized p d d' Hs) as [He Hd].
  split; [exact He|].
  rewrite Hd, (Hsize _ _ _ _ _ Hr). reflexivity.
Qed.

(** With no fault of the environment a turn of the loop keeps a valid
    sprite valid, whether the turn is about that sprite or not. *)
Lemma body_keeps_valid (Hfault : no_fault P) (q : string) (j : Z) (d : FS P) :
  valid_sprite P q d -> valid_sprite P q (fst (body_effect P env j d)).
Proof.
  intros [Hex Hdec].
  destruct (string_dec q (file_path_of env j)) as [E|NE].
  - subst q. unfold body_effect. rewrite Hex.
    destruct (decoded_size_open _ _ _ Hdec) as [img Ho].
    destruct Hfault as [Hrt Hst].
    destruct (Hrt _ _ _ Ho) as [resized Hr].
    pose proof (Hst resized (file_path_of env j) d
                  (Hsize _ _ _ _ _ Hr) Hex) as Hs.
    unfold resize_effect. rewrite Ho, Hr.
    destruct (image_save P resized (file_path_of env j) d)
      as [r d'] eqn:Esave.
    simpl in Hs. subst r. simpl.
    exact (saved_sprite_is_valid _ _ _ _ _ Hr Esave).
  - destruct (body_effect_disk P env j d) as [E|[resized E]]; rewrite E.
    + split; assumption.
    + destruct (Hothers resized (file_path_of env j) d q NE) as [H1 H2].
      split; [rewrite H1|rewrite H2]; assumption.
Qed.

Lemma loop_keeps_valid (Hfault : no_fault P) (q : string) (l : list Z)
    (d : FS P) :
  valid_sprite P q d -> valid_sprite P q (fst (loop_effect P env l d)).
Proof.
  revert d; induction l as [|j l IH]; intros d Hv; [exact Hv|].
  simpl. pose proof (body_keeps_valid Hfault q j d Hv) as Hb.
  destruct (body_effect P env j d) as [d1 t1].
  specialize (IH d1 Hb).
  destruct (loop_effect P env l d1) as [d2 t2]. exact IH.
Qed.

End WithLibrary.

End Frame.

(** C7: a file whose name is not one of 001.png .. 050.png, in whatever
    directory it lies, has after a run the bytes it had before (and is
    absent after the run if it was absent before), the image library
    writing only to the path it is asked to save to. *)
Theorem files_of_other_names_are_untouched
    (P : Platform) (env : Env) (d : FS P) (q : string) :
  save_writes_only_its_path P ->
  (forall i, 1 <= i <= 50 -> Py.basename q <> three_digit_png i) ->
  read_bytes P q (disk (run P env d)) = read_bytes P q d.
Proof.
  intros Hlocal Hname. rewrite run_disk.
  apply (loop_effect_frame P env (read_bytes P q) q).
  - intros img p d0 Hq. apply Hlocal. exact Hq.
  - intros i Hin E. apply in_range in Hin.
    assert (Hi : 1 <= i <= 50) by lia.
    apply (Hname i Hi). rewrite E, (basename_file_path_of env i Hi).
    apply (filename_facts i Hi).
Qed.

Lemma files_of_other_names_are_untouched_witness :
  Py.basename "/srv/app/notes.txt" = "notes.txt" /\
  disk (run Mem.platform Mem.env Mem.scenario) "/srv/app/notes.txt" =
    Some Mem.text.
Proof.
  split; [reflexivity|].
  apply (files_of_other_names_are_untouched Mem.platform Mem.env
           Mem.scenario "/srv/app/notes.txt" mem_writes_only_its_path).
  intros i _ E. discriminate E.
Defined.

(** C1 as the spec states it fails: in the scenario directory 003.png is
    there before the run, is not an image, and is not 128x128 after. *)
Lemma existing_corrupt_sprite_is_not_resized :
  ~ every_existing_sprite_ends_128x128 Mem.platform Mem.env Mem.scenario.
Proof.
  intros H.
  assert (H3 : 1 <= 3 <= 50) by lia.
  destruct (H 3 H3 eq_refl) as [_ Hdec].
  vm_compute in Hdec. discriminate Hdec.
Qed.

(** C1, amended: a sprite of 1..50 that is there before the run and for
    which the run reports no error is there after the run and decodes to
    128x128, given an image library that resizes to the size asked for,
    whose saved files decode to what was saved, and whose saves leave
    other paths alone. *)
Theorem existing_sprite_without_error_ends_128x128
    (P : Platform) (env : Env) (d : FS P) (i : Z) :
  resize_honours_size P ->
  save_roundtrip P ->
  save_keeps_others P ->
  1 <= i <= 50 ->
  path_exists P (file_path_of env i) d = true ->
  (forall e,
     ~ In (error_line (file_path_of env i) e)
         (stdout_of (trace (run P env d)))) ->
  path_exists P (file_path_of env i) (disk (run P env d)) = true /\
  decoded_size P (file_path_of env i) (disk (run P env d)) = Some (128, 128).
Proof.
  intros Hsize Hround Hothers Hi Hex Hnoerr.
  set (p := file_path_of env i) in *.
  destruct (loop_effect_split P env (Py.range 1 i) (Py.range (i + 1) 51) i d)
    as [Hd Ht].
  rewrite run_disk, (range_split i Hi), Hd.
  rewrite run_trace, (range_split i Hi), Ht in Hnoerr.
  set (d1 := fst (loop_effect P env (Py.range 1 i) d)) in *.
  assert (Hex1 : path_exists P p d1 = true).
  { destruct (loop_keeps_other_sprite P env Hothers p (Py.range 1 i) d)
      as [H _]; [|fold d1 in H; rewrite H; exact Hex].
    intros j Hj E. apply in_range in Hj.
    assert (i = j) by (apply (file_path_of_inj env); [lia|lia|exact E]).
    lia. }
  assert (Hvalid : valid_sprite P p (fst (body_effect P env i d1))).
  { pose proof (body_effect_stdout P env i d1) as Hout.
    fold p in Hout. rewrite Hex1 in Hout.
    unfold body_effect. fold p. rewrite Hex1.
    destruct (raised_in P p default_size d1) as [e|] eqn:Hraised.
    - exfalso. apply (Hnoerr e).
      rewrite !stdout_of_app, Hout.
      apply in_or_app. right. apply in_or_app. left. left. reflexivity.
    - destruct (raised_in_none P p default_size d1 Hraised)
        as (img & resized & d' & _ & Hr & Hs & Hfst).
      destruct (resize_effect P p default_size d1) as [d2 t2].
      simpl in *. subst d2.
      exact (saved_sprite_is_valid P Hsize Hround p d1 d' img resized Hr Hs). }
  destruct Hvalid as [Hv1 Hv2].
  destruct (loop_keeps_other_sprite P env Hothers p (Py.range (i + 1) 51)
              (fst (body_effect P env i d1))) as [H1 H2].
  { intros j Hj E. apply in_range in Hj.
    assert (i = j) by (apply (file_path_of_inj env); [lia|lia|exact E]).
    lia. }
  rewrite H1, H2. split; assumption.
Qed.

Lemma existing_sprite_without_error_ends_128x128_witness :
  Mem.exists_ "/srv/app/001.png" Mem.scenario = true /\
  decoded_size Mem.platform "/srv/app/001.png" Mem.scenario =
    Some (200, 100) /\
  decoded_size Mem.platform "/srv/app/001.png"
    (disk (run Mem.platform Mem.env Mem.scenario)) = Some (128, 128).
Proof.
  split; [reflexivity|]. split; [reflexivity|].
  apply (existing_sprite_without_error_ends_128x128 Mem.platform Mem.env
           Mem.scenario 1 mem_honours_size mem_roundtrip mem_keeps_others).
  - lia.
  - reflexivity.
  - intros e. vm_compute. intros H.
    repeat (destruct H as [H|H]; [discriminate H|]). exact H.
Defined.

(** C8: in a directory whose sprites of 1..50, as far as they are there,
    are 128x128, every sprite that is there is there and 128x128 after a
    run and again after a second run on what the first left, given an
    image library as in C1 and no fault of the environment. *)
Theorem two_runs_keep_128x128 (P : Platform) (env : Env) (d : FS P) :
  resize_honours_size P ->
  save_roundtrip P ->
  save_keeps_others P ->
  no_fault P ->
  only_valid_sprites P env d ->
  forall i,
    1 <= i <= 50 ->
    path_exists P (file_path_of env i) d = true ->
    valid_sprite P (file_path_of env i) (disk (run P env d)) /\
    valid_sprite P (file_path_of env i)
      (disk (run P env (disk (run P env d)))).
Proof.
  intros Hsize Hround Hothers Hfault Hdir i Hi Hex.
  assert (Hv : valid_sprite P (file_path_of env i) d).
  { split; [exact Hex|exact (Hdir i Hi Hex)]. }
  assert (Hrun : forall d0,
             valid_sprite P (file_path_of env i) d0 ->
             valid_sprite P (file_path_of env i) (disk (run P env d0))).
  { intros d0 H0. rewrite run_disk.
    apply (loop_keeps_valid P env Hsize Hround Hothers Hfault). exact H0. }
  split; [apply Hrun; exact Hv|].
  apply Hrun. apply Hrun. exact Hv.
Qed.

Lemma mem_resized_dir_valid :
  only_valid_sprites Mem.platform Mem.env Mem.resized_dir.
Proof.
  intros i Hi.
  assert (Hin : In i (Py.range 1 51)) by (apply in_range; lia).
  vm_compute in Hin.
  repeat (destruct Hin as [Hin|Hin]; [subst i; vm_compute; congruence|]).
  contradiction.
Qed.

Lemma two_runs_keep_128x128_witness :
  Mem.exists_ "/srv/app/002.png" Mem.resized_dir = true /\
  decoded_size Mem.platform "/srv/app/002.png"
    (disk (run Mem.platform Mem.env
             (disk (run Mem.platform Mem.env Mem.resized_dir)))) =
  Some (128, 128).
Proof.
  split; [reflexivity|].
  apply (two_runs_keep_128x128 Mem.platform Mem.env Mem.resized_dir
           mem_honours_size mem_roundtrip mem_keeps_others mem_no_fault
           mem_resized_dir_valid 2).
  - lia.
  - reflexivity.
Defined.

(** ** The scenario directory, run

    001.png is a 200x100 image, 002.png is missing, 003.png is a text
    file: the first ends 128x128, the second is reported missing, the
    third is reported as an error and keeps its bytes, and the process
    exits normally. *)

Example scenario_console :
  firstn 4 (stdout_of (trace (run Mem.platform Mem.env Mem.scenario))) =
  ["Successfully resized /srv/app/001.png";
   "File not found: 002.png";
   "Error processing /srv/app/003.png: cannot identify image file /srv/app/003.png";
   "File not found: 004.png"].
Proof. vm_compute. reflexivity. Qed.

Example scenario_disk :
  decoded_size Mem.platform "/srv/app/001.png"
    (disk (run Mem.platform Mem.env Mem.scenario)) = Some (128, 128) /\
  disk (run Mem.platform Mem.env Mem.scenario) "/srv/app/002.png" = None /\
  disk (run Mem.platform Mem.env Mem.scenario) "/srv/app/003.png" =
    Some Mem.text /\
  exit_status Mem.platform Mem.env Mem.scenario = 0.
Proof. vm_compute. repeat split; reflexivity. Qed.

(** ** Further properties of the script *)

(** *** The shape of a turn and an induction over the loop *)

Section Turns.

Context (P : Platform) (env : Env).

Lemma body_effect_cases (i : Z) (d : FS P) :
  let p := file_path_of env i in
  let t := snd (body_effect P env i d) in
  (path_exists P p d = false /\ t = not_found_turn env i) \/
  (exists e,
     t = [EvExists p true; EvOpen p (Some e); EvPrint (error_line p e)]) \/
  (exists e,
     t = [EvExists p true; EvOpen p None;
          EvResize (128, 128) LANCZOS (Some e); EvClose;
          EvPrint (error_line p e)]) \/
  (exists e,
     t = [EvExists p true; EvOpen p None; EvResize (128, 128) LANCZOS None;
          EvSave p (Some e); EvClose; EvPrint (error_line p e)]) \/
  t = [EvExists p true; EvOpen p None; EvResize (128, 128) LANCZOS None;
       EvSave p None; EvPrint (success_line p); EvClose].
Proof.
  intros p t. subst t. unfold body_effect. fold p.
  destruct (path_exists P p d); [|left; split; reflexivity].
  right. unfold resize_effect, default_size.
  destruct (image_open P p d) as [img|e];
    [|left; exists e; reflexivity].
  destruct (image_resize P img (128, 128) LANCZOS d) as [resized|e];
    [|right; left; exists e; reflexivity].
  destruct (image_save P resized p d) as [[[]|e] d'].
  - right. right. right. reflexivity.
  - right. right. left. exists e. reflexivity.
Qed.

(** What holds of the empty trace, of every turn, and of a concatenation
    when it holds of both parts, holds of the trace of a loop. *)
Lemma loop_effect_trace_ind (Q : list event -> Prop) (l : list Z) :
  Q [] ->
  (forall t1 t2, Q t1 -> Q t2 -> Q (t1 ++ t2)%list) ->
  (forall i d, In i l -> Q (snd (body_effect P env i d))) ->
  forall d, Q (snd (loop_effect P env l d)).
Proof.
  intros Hnil Happ. induction l as [|i l IH]; intros Hbody d; [exact Hnil|].
  simpl. pose proof (Hbody i d (or_introl eq_refl)) as Hb.
  destruct (body_effect P env i d) as [d1 t1].
  assert (IH1 := IH (fun j d0 Hj => Hbody j d0 (or_intror Hj)) d1).
  destruct (loop_effect P env l d1) as [d2 t2].
  simpl in *. apply Happ; assumption.
Qed.

End Turns.

Lemma handle_scan_app (h : handle) (t1 t2 : list event) :
  handle_scan h (t1 ++ t2) =
  match handle_scan h t1 with
  | Some h' => handle_scan h' t2
  | None => None
  end.
Proof.
  revert h; induction t1 as [|ev t1 IH]; intros h; [reflexivity|].
  simpl. destruct (handle_step h ev) as [h'|]; [apply IH|reflexivity].
Qed.

(** X1: the image handle is used with discipline.  In a call of
    [resize_image], and in a whole run, an image is resized and saved only
    between the open that returned it and its close, the close follows on
    every path out of the block, no path is probed or opened while an
    image is held, and at the end none is held. *)
Theorem image_handle_is_always_released (P : Platform) :
  (forall file_path size d,
     handle_scan Idle
       (trace (snd (resize_image P file_path size (boot P d)))) =
     Some Idle) /\
  (forall env d, handle_scan Idle (trace (run P env d)) = Some Idle).
Proof.
  split.
  - intros file_path size d. rewrite resize_image_effect.
    cbn [snd trace boot disk app]. unfold resize_effect.
    destruct (image_open P file_path d) as [img|e]; [|reflexivity].
    destruct (image_resize P img size LANCZOS d) as [resized|e];
      [|reflexivity].
    destruct (image_save P resized file_path d) as [[[]|e] d'];
      reflexivity.
  - intros env d. rewrite run_trace.
    apply (loop_effect_trace_ind P env
             (fun t => handle_scan Idle t = Some Idle)).
    + reflexivity.
    + intros t1 t2 H1 H2. rewrite handle_scan_app, H1. exact H2.
    + intros i d0 _.
      destruct (body_effect_cases P env i d0)
        as [[_ H]|[[e H]|[[e H]|[[e H]|H]]]]; rewrite H; reflexivity.
Qed.

Lemma range_NoDup (lo hi : Z) : NoDup (Py.range lo hi).
Proof.
  unfold Py.range. generalize (seq_NoDup (Z.to_nat (hi - lo)) 0).
  generalize (seq 0 (Z.to_nat (hi - lo))) as l.
  induction l as [|a l IH]; intros Hnd; [constructor|].
  inversion Hnd as [|x xs Hnotin Hnodup]; subst. simpl. constructor.
  - intros Hin. apply in_map_iff in Hin. destruct Hin as [b [E Hb]].
    assert (b = a) by lia. subst b. contradiction.
  - apply IH. exact Hnodup.
Qed.

Lemma file_paths_NoDup (env : Env) :
  NoDup (map (file_path_of env) (Py.range 1 51)).
Proof.
  assert (H : forall l,
             NoDup l -> (forall i, In i l -> 1 <= i <= 50) ->
             NoDup (map (file_path_of env) l)).
  { induction l as [|i l IH]; intros Hnd Hr; [constructor|].
    inversion Hnd as [|x xs Hnotin Hnodup]; subst. simpl. constructor.
    - intros Hin. apply in_map_iff in Hin. destruct Hin as [j [E Hj]].
      assert (j = i).
      { apply (file_path_of_inj env);
          [apply Hr; right; exact Hj|apply Hr; left; reflexivity|exact E]. }
      subst j. contradiction.
    - apply IH; [exact Hnodup|]. intros j Hj. apply Hr. right. exact Hj. }
  apply H; [apply range_NoDup|].
  intros i Hi. apply in_range in Hi. lia.
Qed.

(** X2: the fifty paths of a run are pairwise distinct, whatever the
    location of the script: no two indices address the same file. *)
Theorem targets_are_pairwise_distinct (env : Env) : NoDup (targets env).
Proof. apply file_paths_NoDup. Qed.

Section RunLevel.

Context (P : Platform) (env : Env).

Lemma loop_effect_all_missing (l : list Z) (d : FS P) :
  (forall i, In i l -> path_exists P (file_path_of env i) d = false) ->
  loop_effect P env l d = (d, flat_map (not_found_turn env) l).
Proof.
  induction l as [|i l IH]; intros H; [reflexivity|].
  cbn [loop_effect flat_map]. unfold body_effect at 1.
  rewrite (H i (or_introl eq_refl)).
  rewrite (IH (fun j Hj => H j (or_intror Hj))). reflexivity.
Qed.

Lemma flat_map_stdout (l : list Z) :
  stdout_of (flat_map (not_found_turn env) l) =
  map (fun i => not_found_line (filename_of i)) l.
Proof.
  induction l as [|i l IH]; [reflexivity|].
  cbn [flat_map map]. rewrite stdout_of_app, IH. reflexivity.
Qed.

(** One reading of a trace that is empty or the turn's own path on every
    turn has no duplicates over a loop of distinct paths. *)
Lemma loop_effect_reading_NoDup (h : list event -> list string) :
  (forall t1 t2, h (t1 ++ t2)%list = (h t1 ++ h t2)%list) ->
  h [] = [] ->
  (forall i d,
     h (snd (body_effect P env i d)) = [] \/
     h (snd (body_effect P env i d)) = [file_path_of env i]) ->
  forall l d,
    NoDup (map (file_path_of env) l) ->
    incl (h (snd (loop_effect P env l d))) (map (file_path_of env) l) /\
    NoDup (h (snd (loop_effect P env l d))).
Proof.
  intros Happ Hnil Hbody. induction l as [|i l IH]; intros d Hnd.
  - simpl. rewrite Hnil. split; [apply incl_refl|constructor].
  - inversion Hnd as [|x xs Hnotin Hnodup]; subst.
    simpl. pose proof (Hbody i d) as Hb.
    destruct (body_effect P env i d) as [d1 t1].
    destruct (IH d1 Hnodup) as [Hincl Hnd'].
    destruct (loop_effect P env l d1) as [d2 t2].
    simpl in *. rewrite Happ.
    destruct Hb as [Hb|Hb]; rewrite Hb; simpl.
    + split; [apply incl_tl; exact Hincl|exact Hnd'].
    + split.
      * apply incl_cons; [left; reflexivity|apply incl_tl; exact Hincl].
      * constructor; [|exact Hnd'].
        intros Hin. apply Hnotin. apply Hincl. exact Hin.
Qed.

End RunLevel.

(** X3: when none of the fifty files is there, a run only probes and
    prints: the disk is left exactly as it was, no image is opened, and
    the console is the fifty not-found lines in the order of the
    indices. *)
Theorem run_on_empty_directory (P : Platform) (env : Env) (d : FS P) :
  (forall i,
     1 <= i <= 50 -> path_exists P (file_path_of env i) d = false) ->
  disk (run P env d) = d /\
  trace (run P env d) =
    flat_map
      (fun i =>
         [EvExists (file_path_of env i) false;
          EvPrint ("File not found: " ++ three_digit_png i)%string])
      (Py.range 1 51) /\
  stdout_of (trace (run P env d)) =
    map (fun i => ("File not found: " ++ three_digit_png i)%string)
      (Py.range 1 51).
Proof.
  intros Hmissing.
  assert (Hloop : loop_effect P env (Py.range 1 51) d =
                  (d, flat_map (not_found_turn env) (Py.range 1 51))).
  { apply loop_effect_all_missing. intros i Hi. apply in_range in Hi.
    apply Hmissing. lia. }
  assert (Hname : forall i,
             In i (Py.range 1 51) -> filename_of i = three_digit_png i).
  { intros i Hi. apply in_range in Hi. apply filename_facts. lia. }
  rewrite run_disk, run_trace, Hloop. cbn [fst snd].
  split; [reflexivity|]. split.
  - clear Hloop. induction (Py.range 1 51) as [|i l IH]; [reflexivity|].
    cbn [flat_map]. rewrite IH by (intros j Hj; apply Hname; right; exact Hj).
    unfold not_found_turn, not_found_line.
    rewrite (Hname i (or_introl eq_refl)). reflexivity.
  - rewrite flat_map_stdout. apply map_ext_in. intros i Hi.
    unfold not_found_line. rewrite (Hname i Hi). reflexivity.
Qed.

Lemma run_on_empty_directory_witness :
  Mem.exists_ "/srv/app/017.png" Mem.empty = false /\
  List.length (stdout_of (trace (run Mem.platform Mem.env Mem.empty))) =
    50%nat /\
  nth 16 (stdout_of (trace (run Mem.platform Mem.env Mem.empty)))
    EmptyString = "File not found: 017.png".
Proof.
  split; [reflexivity|].
  destruct (run_on_empty_directory Mem.platform Mem.env Mem.empty)
    as (_ & _ & H).
  - intros i _. reflexivity.
  - rewrite H. split; reflexivity.
Defined.

(** X4: in a run every path whose probe answers yes is opened, and no
    other; each path is opened at most once and saved at most once (there
    is no second attempt); and a path is saved only if it was opened. *)
Theorem each_existing_file_gets_one_attempt
    (P : Platform) (env : Env) (d : FS P) :
  opened_of (trace (run P env d)) = probed_true_of (trace (run P env d)) /\
  NoDup (opened_of (trace (run P env d))) /\
  NoDup (saved_of (trace (run P env d))) /\
  incl (saved_of (trace (run P env d))) (opened_of (trace (run P env d))).
Proof.
  rewrite run_trace.
  assert (Hnd : NoDup (map (file_path_of env) (Py.range 1 51)))
    by apply file_paths_NoDup.
  split; [|split; [|split]].
  - apply (loop_effect_trace_ind P env
             (fun t => opened_of t = probed_true_of t)).
    + reflexivity.
    + intros t1 t2 H1 H2. unfold opened_of, probed_true_of in *.
      rewrite !flat_map_app, H1, H2. reflexivity.
    + intros i d0 _.
      destruct (body_effect_cases P env i d0)
        as [[_ H]|[[e H]|[[e H]|[[e H]|H]]]]; rewrite H; reflexivity.
  - apply (loop_effect_reading_NoDup P env opened_of); [| |
      |exact Hnd].
    + intros t1 t2. apply flat_map_app.
    + reflexivity.
    + intros i d0.
      destruct (body_effect_cases P env i d0)
        as [[_ H]|[[e H]|[[e H]|[[e H]|H]]]]; rewrite H; auto.
  - apply (loop_effect_reading_NoDup P env saved_of); [| |
      |exact Hnd].
    + apply saved_of_app.
    + reflexivity.
    + intros i d0.
      destruct (body_effect_cases P env i d0)
        as [[_ H]|[[e H]|[[e H]|[[e H]|H]]]]; rewrite H; auto.
  - apply (loop_effect_trace_ind P env
             (fun t => incl (saved_of t) (opened_of t))).
    + apply incl_refl.
    + intros t1 t2 H1 H2. unfold opened_of in *.
      rewrite saved_of_app, flat_map_app. apply incl_app.
      * apply incl_appl. exact H1.
      * apply incl_appr. exact H2.
    + intros i d0 _.
      destruct (body_effect_cases P env i d0)
        as [[_ H]|[[e H]|[[e H]|[[e H]|H]]]]; rewrite H; simpl;
        intros x Hx; exact Hx || contradiction.
Qed.

(** X5: the console and the disk agree about success.  The success lines
    of a run, in order, are exactly the lines for the paths whose save
    returned, in order: no success is printed for a save that raised or
    was never reached, and no completed save goes unreported. *)
Theorem success_lines_match_completed_saves
    (P : Platform) (env : Env) (d : FS P) :
  filter (Py.startswith "Successfully resized ")
    (stdout_of (trace (run P env d))) =
  map (fun p => ("Successfully resized " ++ p)%string)
    (saved_ok_of (trace (run P env d))).
Proof.
  rewrite run_trace.
  apply (loop_effect_trace_ind P env
           (fun t =>
              filter (Py.startswith "Successfully resized ") (stdout_of t) =
              map (fun p => ("Successfully resized " ++ p)%string)
                (saved_ok_of t))).
  - reflexivity.
  - intros t1 t2 H1 H2. unfold saved_ok_of in *.
    rewrite stdout_of_app, filter_app, flat_map_app, map_app, H1, H2.
    reflexivity.
  - intros i d0 _.
    destruct (body_effect_cases P env i d0)
      as [[_ H]|[[e H]|[[e H]|[[e H]|H]]]]; rewrite H; reflexivity.
Qed.

(** X6: no run ever asks the library for another size or another filter:
    every resize of a run is to (128, 128) with LANCZOS. *)
Theorem run_resizes_only_to_128_with_lanczos
    (P : Platform) (env : Env) (d : FS P) :
  Forall (fun r => r = ((128, 128), LANCZOS))
    (resizes_of (trace (run P env d))).
Proof.
  rewrite run_trace.
  apply (loop_effect_trace_ind P env
           (fun t => Forall (fun r => r = ((128, 128), LANCZOS))
                       (resizes_of t))).
  - constructor.
  - intros t1 t2 H1 H2. unfold resizes_of in *.
    rewrite flat_map_app. apply Forall_app. split; assumption.
  - intros i d0 _.
    destruct (body_effect_cases P env i d0)
      as [[_ H]|[[e H]|[[e H]|[[e H]|H]]]]; rewrite H; simpl;
      repeat constructor.
Qed.

(** *** Directories and absolute paths *)

Lemma all_sep_endswith (a : string) :
  Py.all_sep a = true -> a <> EmptyString -> Py.endswith_sep a = true.
Proof.
  induction a as [|c a IH]; [congruence|].
  cbn [Py.all_sep]. intros H _. apply andb_prop in H. destruct H as [Hc Ha].
  destruct a as [|c' a]; [exact Hc|].
  change (Py.endswith_sep (String c' a) = true).
  apply IH; [exact Ha|discriminate].
Qed.

Lemma all_sep_snoc (a : string) :
  Py.all_sep (a ++ "/") = Py.all_sep a.
Proof.
  induction a as [|c a IH]; [reflexivity|].
  simpl. rewrite IH. reflexivity.
Qed.

Lemma rsplit_after_sep (a n : string) :
  Py.endswith_sep a = true -> Py.has_sep n = false ->
  Py.rsplit_sep (a ++ n) = (a, n).
Proof.
  intros Ha Hn. induction a as [|c a IH]; [discriminate|].
  destruct a as [|c' a].
  - simpl in Ha. simpl. rewrite Hn, Ha.
    apply Ascii.eqb_eq in Ha. subst c. reflexivity.
  - change ((String c (String c' a)) ++ n)
      with (String c (String c' a ++ n)).
    cbn [Py.rsplit_sep].
    rewrite (endswith_has_sep (String c' a) n Ha), (IH Ha). reflexivity.
Qed.

Lemma rstrip_sep_snoc (a : string) :
  Py.endswith_sep a = false -> a <> EmptyString ->
  Py.rstrip_sep (a ++ "/") = a.
Proof.
  induction a as [|c a IH]; [congruence|]. intros He _.
  change (String c a ++ "/") with (String c (a ++ "/")).
  cbn [Py.rstrip_sep]. rewrite all_sep_snoc.
  destruct a as [|c' a].
  - simpl in He. simpl. rewrite He. reflexivity.
  - change (Py.endswith_sep (String c' a) = false) in He.
    destruct (Py.all_sep (String c' a)) eqn:Ea.
    + rewrite (all_sep_endswith _ Ea) in He; [discriminate|discriminate].
    + rewrite IH; [reflexivity|exact He|discriminate].
Qed.

Lemma rstrip_sep_nonempty (s : string) :
  Py.all_sep s = false -> Py.rstrip_sep s <> EmptyString.
Proof.
  destruct s as [|c s]; [discriminate|].
  cbn [Py.all_sep Py.rstrip_sep]. intros H.
  destruct (Py.all_sep s).
  - rewrite andb_true_r in H. rewrite H. discriminate.
  - discriminate.
Qed.

Lemma rstrip_sep_no_trailing (s : string) :
  Py.endswith_sep (Py.rstrip_sep s) = false.
Proof.
  induction s as [|c s IH]; [reflexivity|].
  cbn [Py.rstrip_sep]. destruct (Py.all_sep s) eqn:Ea.
  - destruct (Ascii.eqb c "/") eqn:Ec; [reflexivity|].
    simpl. exact Ec.
  - pose proof (rstrip_sep_nonempty s Ea) as Hne.
    destruct (Py.rstrip_sep s) as [|c' r] eqn:Er; [congruence|].
    exact IH.
Qed.

(** What [dirname] returns is made of slashes only (or is empty), or does
    not end with a slash. *)
Lemma dirname_normal (p : string) :
  Py.all_sep (Py.dirname p) = true \/ Py.endswith_sep (Py.dirname p) = false.
Proof.
  unfold Py.dirname. destruct (fst (Py.rsplit_sep p)) as [|c h] eqn:Eh.
  - left. reflexivity.
  - cbn [String.eqb negb andb].
    destruct (Py.all_sep (String c h)) eqn:Ea.
    + left. simpl. exact Ea.
    + right. apply rstrip_sep_no_trailing.
Qed.

Lemma dirname_join (dir n : string) :
  Py.all_sep dir = true \/ Py.endswith_sep dir = false ->
  Py.has_sep n = false ->
  Py.dirname (Py.join dir n) = dir.
Proof.
  intros Hdir Hn. rewrite (join_no_sep dir n Hn).
  destruct dir as [|c dir'].
  - simpl. unfold Py.dirname. rewrite (rsplit_no_sep n Hn). reflexivity.
  - set (dir := String c dir') in *.
    assert (Hne : dir <> EmptyString) by discriminate.
    replace (String.eqb dir EmptyString) with false by reflexivity.
    cbn [orb].
    destruct (Py.endswith_sep dir) eqn:Es.
    + destruct Hdir as [Hall|Hno]; [|discriminate].
      unfold Py.dirname. rewrite (rsplit_after_sep dir n Es Hn).
      cbn [fst]. rewrite Hall, andb_false_r. reflexivity.
    + unfold Py.dirname.
      rewrite (rsplit_after_sep (dir ++ "/") n (endswith_sep_snoc dir) Hn).
      cbn [fst]. rewrite all_sep_snoc.
      destruct (Py.all_sep dir) eqn:Ea.
      * rewrite (all_sep_endswith dir Ea Hne) in Es. discriminate.
      * replace (String.eqb (dir ++ "/") EmptyString) with false
          by reflexivity.
        cbn [negb andb]. apply rstrip_sep_snoc; assumption.
Qed.

(** X7: every one of the fifty paths lies directly in the directory of the
    script: taking the path apart again gives back the script's directory
    and the file name, whatever [__file__] and the working directory are. *)
Theorem targets_split_into_script_directory_and_name (env : Env) :
  map Py.dirname (targets env) = map (fun _ => current_dir env) (Py.range 1 51)
  /\
  map Py.basename (targets env) = map three_digit_png (Py.range 1 51).
Proof.
  unfold targets. rewrite !map_map. split.
  - apply map_ext_in. intros i Hi. apply in_range in Hi.
    unfold file_path_of. apply dirname_join.
    + unfold current_dir. apply dirname_normal.
    + apply filename_facts. lia.
  - apply map_ext_in. intros i Hi. apply in_range in Hi.
    assert (Hr : 1 <= i <= 50) by lia.
    rewrite (basename_file_path_of env i Hr). apply (filename_facts i Hr).
Qed.

Lemma startswith_sep_inv (s : string) :
  Py.startswith "/" s = true -> exists rest, s = String "/" rest.
Proof.
  destruct s as [|c rest]; [discriminate|].
  cbn [Py.startswith]. rewrite andb_true_r. intros H.
  apply Ascii.eqb_eq in H. subst c. exists rest. reflexivity.
Qed.

Lemma isabs_cons (rest : string) : Py.isabs (String "/" rest) = true.
Proof. reflexivity. Qed.

Lemma normpath_isabs (p : string) :
  Py.isabs p = true -> Py.isabs (Py.normpath p) = true.
Proof.
  intros H. destruct (startswith_sep_inv p H) as [rest E]. subst p.
  unfold Py.normpath.
  replace (String.eqb (String "/" rest) EmptyString) with false
    by reflexivity.
  replace (Py.startswith "/" (String "/" rest)) with true by reflexivity.
  destruct (Py.startswith "//" (String "/" rest)
            && negb (Py.startswith "///" (String "/" rest)))%bool;
    reflexivity.
Qed.

Lemma dirname_isabs (p : string) :
  Py.isabs p = true -> Py.isabs (Py.dirname p) = true.
Proof.
  intros H. destruct (startswith_sep_inv p H) as [rest E]. subst p.
  unfold Py.dirname. cbn [Py.rsplit_sep].
  assert (Hhead : exists h,
            fst (if Py.has_sep rest
                 then let (head, tail) := Py.rsplit_sep rest in
                      (String "/" head, tail)
                 else if Ascii.eqb "/" "/" then ("/", rest)
                      else (EmptyString, String "/" rest)) = String "/" h).
  { destruct (Py.has_sep rest).
    - destruct (Py.rsplit_sep rest) as [h t]. exists h. reflexivity.
    - exists EmptyString. reflexivity. }
  destruct Hhead as [h Eh]. rewrite Eh.
  replace (String.eqb (String "/" h) EmptyString) with false by reflexivity.
  cbn [negb andb].
  destruct (Py.all_sep (String "/" h)) eqn:Ea; [reflexivity|].
  cbn [negb Py.rstrip_sep].
  cbn [Py.all_sep] in Ea. replace (Ascii.eqb "/" "/") with true in Ea
    by reflexivity.
  cbn [andb] in Ea. rewrite Ea. reflexivity.
Qed.

Lemma join_isabs (a b : string) :
  Py.isabs a = true -> Py.isabs (Py.join a b) = true.
Proof.
  intros H. destruct (startswith_sep_inv a H) as [rest E]. subst a.
  unfold Py.join. destruct (Py.startswith "/" b) eqn:Eb; [exact Eb|].
  destruct (String.eqb (String "/" rest) EmptyString
            || Py.endswith_sep (String "/" rest))%bool; reflexivity.
Qed.

(** X8: when the working directory is absolute, as the operating system
    reports it, or [__file__] is, every path the run works on is
    absolute: what a run reads and writes does not depend on where the
    process stands once it has started. *)
Theorem targets_are_absolute (env : Env) :
  Py.isabs (cwd env) = true \/ Py.isabs (dunder_file env) = true ->
  Forall (fun p => Py.isabs p = true) (targets env).
Proof.
  intros Habs.
  assert (Hdir : Py.isabs (current_dir env) = true).
  { unfold current_dir, Py.abspath.
    apply dirname_isabs, normpath_isabs.
    destruct (Py.isabs (dunder_file env)) eqn:Ef; [exact Ef|].
    destruct Habs as [Hc|Hf]; [|discriminate].
    apply join_isabs. exact Hc. }
  unfold targets. apply Forall_forall. intros p Hp.
  apply in_map_iff in Hp. destruct Hp as [i [E _]]. subst p.
  unfold file_path_of. apply join_isabs. exact Hdir.
Qed.

Lemma targets_are_absolute_witness :
  Py.isabs "/home/dev" = true /\
  Forall (fun p => Py.isabs p = true)
    (targets (mkEnv "sprites/resize.py" "/home/dev")).
Proof.
  split; [reflexivity|].
  apply (targets_are_absolute (mkEnv "sprites/resize.py" "/home/dev")).
  left. reflexivity.
Defined.

(** *** What a run changes and what it reports *)

Section Changes.

Context (P : Platform) (env : Env).

Lemma body_effect_saved (i : Z) (d : FS P) :
  (fst (body_effect P env i d) = d /\
   saved_of (snd (body_effect P env i d)) = []) \/
  (exists resized,
     fst (body_effect P env i d) =
       snd (image_save P resized (file_path_of env i) d) /\
     saved_of (snd (body_effect P env i d)) = [file_path_of env i]).
Proof.
  unfold body_effect.
  destruct (path_exists P (file_path_of env i) d); [|left; split; reflexivity].
  destruct (reaches_save P (file_path_of env i) default_size d) eqn:E.
  - destruct (resize_effect_save P _ _ _ E)
      as (img & resized & _ & _ & Hd & Hs).
    right. exists resized.
    destruct (resize_effect P (file_path_of env i) default_size d)
      as [d' t]. simpl in *. split; assumption.
  - destruct (resize_effect_no_save P _ _ _ E) as [Hd Hs].
    left.
    destruct (resize_effect P (file_path_of env i) default_size d)
      as [d' t]. simpl in *. split; assumption.
Qed.

Lemma loop_effect_unsaved (Hlocal : save_writes_only_its_path P)
    (q : string) (l : list Z) (d : FS P) :
  ~ In q (saved_of (snd (loop_effect P env l d))) ->
  read_bytes P q (fst (loop_effect P env l d)) = read_bytes P q d.
Proof.
  revert d; induction l as [|i l IH]; intros d Hq; [reflexivity|].
  simpl in *. pose proof (body_effect_saved i d) as Hb.
  destruct (body_effect P env i d) as [d1 t1].
  specialize (IH d1).
  destruct (loop_effect P env l d1) as [d2 t2].
  simpl in *. rewrite saved_of_app in Hq.
  rewrite IH by (intros H; apply Hq; apply in_or_app; right; exact H).
  destruct Hb as [[Hd _]|[resized [Hd Hs]]]; rewrite Hd; [reflexivity|].
  apply Hlocal. intros E. apply Hq. apply in_or_app. left.
  rewrite Hs, E. left. reflexivity.
Qed.

End Changes.

(** X9: a file changes in a run only by being saved.  If the bytes at a
    path differ after a run, the run called [save] on that path; so a
    file that was missing, or whose decoding or resampling failed, has
    after the whole run the bytes it had before.  The image library is
    taken to write only to the path it is asked to save to. *)
Theorem modified_files_were_saved
    (P : Platform) (env : Env) (d : FS P) (q : string) :
  save_writes_only_its_path P ->
  read_bytes P q (disk (run P env d)) <> read_bytes P q d ->
  In q (saved_of (trace (run P env d))).
Proof.
  intros Hlocal Hchanged.
  destruct (in_dec string_dec q (saved_of (trace (run P env d))))
    as [Hin|Hnotin]; [exact Hin|].
  exfalso. apply Hchanged.
  rewrite run_trace in Hnotin. rewrite run_disk.
  apply loop_effect_unsaved; assumption.
Qed.

Lemma modified_files_were_saved_witness :
  disk (run Mem.platform Mem.env Mem.scenario) "/srv/app/001.png" <>
    Mem.scenario "/srv/app/001.png" /\
  In "/srv/app/001.png"
    (saved_of (trace (run Mem.platform Mem.env Mem.scenario))).
Proof.
  assert (H : disk (run Mem.platform Mem.env Mem.scenario)
                "/srv/app/001.png" <>
              Mem.scenario "/srv/app/001.png").
  { vm_compute. discriminate. }
  split; [exact H|].
  exact (modified_files_were_saved Mem.platform Mem.env Mem.scenario
           "/srv/app/001.png" mem_writes_only_its_path H).
Defined.

(** X10: every exception the platform raises in a run is reported, and
    reported once: the console has as many error lines as exceptions were
    raised. *)
Theorem every_failure_is_reported_once
    (P : Platform) (env : Env) (d : FS P) :
  List.length
    (filter (Py.startswith "Error processing ")
       (stdout_of (trace (run P env d)))) =
  List.length (raised_events (trace (run P env d))).
Proof.
  rewrite run_trace.
  apply (loop_effect_trace_ind P env
           (fun t =>
              List.length
                (filter (Py.startswith "Error processing ") (stdout_of t)) =
              List.length (raised_events t))).
  - reflexivity.
  - intros t1 t2 H1 H2. unfold raised_events in *.
    rewrite stdout_of_app, filter_app, flat_map_app, !length_app, H1, H2.
    reflexivity.
  - intros i d0 _.
    destruct (body_effect_cases P env i d0)
      as [[_ H]|[[e H]|[[e H]|[[e H]|H]]]]; rewrite H; reflexivity.
Qed.
